(** * TVBox tools: a shallow embedding of the four scripts

    The repository holds four command-line scripts
    ([bin/parse_api.py], [parse_sites.py], [bin/fetch_all_pages.py],
    [bin/fetch_play_urls.py]).  Each reads local JSON, issues HTTP GET
    requests, and merges or stores the JSON it receives.

    The embedding has three layers:
    - [Py]: the Python values the scripts manipulate (what [json.load]
      returns) and the builtins applied to them, with the exceptions they
      raise on values of the wrong type;
    - [Env]: the outside world (file system, network) and a small monad
      that threads it and carries uncaught exceptions;
    - one module per script, with the script's functions under their own
      names.

    Console output is not modelled, but an expression evaluated only to be
    printed is, whenever it can raise. *)

From Stdlib Require Import String Ascii DecimalString.
From Stdlib Require Import ZArith NArith Bool List Lia Floats.
Import ListNotations.

#[local] Set Warnings "-register-all".

Local Open Scope Z_scope.

(* ================================================================== *)
(** ** Python values and builtins                                      *)
(* ================================================================== *)

Module Py.

(** A Python [str] is a sequence of Unicode code points. *)
Definition pychar := N.
Definition pystr := list pychar.

(** A string literal of the source whose characters are all ASCII. *)
Definition lit (s : string) : pystr :=
  map N_of_ascii (list_ascii_of_string s).

Definition str_eqb (a b : pystr) : bool :=
  if list_eq_dec N.eq_dec a b then true else false.

(** What [json.load] returns: [None], [bool], [int], [float], [str],
    [list], and [dict] with [str] keys.  A dict keeps its keys in insertion
    order, so it is an association list; [json.load] never produces the
    same key twice and [dict_set] below keeps it so. *)
Inductive json : Type :=
| JNull
| JBool (b : bool)
| JInt (n : Z)
| JFloat (f : float)
| JStr (s : pystr)
| JArr (l : list json)
| JObj (d : list (pystr * json)).

Definition dict := list (pystr * json).

(** Uncaught exceptions, by class. *)
Inductive exn := TypeError | AttributeError | KeyError | IndexError | OSError.

Inductive res (A : Type) : Type :=
| Ret (a : A)
| Raise (e : exn).
Arguments Ret {A} a.
Arguments Raise {A} e.

Definition rbind {A B} (r : res A) (k : A -> res B) : res B :=
  match r with
  | Ret a => k a
  | Raise e => Raise e
  end.

(** [bool(v)], as taken by [if v:] and [not v]. *)
Definition truthy (v : json) : bool :=
  match v with
  | JNull => false
  | JBool b => b
  | JInt n => negb (n =? 0)
  | JFloat f => negb (PrimFloat.eqb f 0%float)
  | JStr s => match s with [] => false | _ => true end
  | JArr l => match l with [] => false | _ => true end
  | JObj d => match d with [] => false | _ => true end
  end.

(** [isinstance(v, dict)]. *)
Definition is_dict (v : json) : bool :=
  match v with JObj _ => true | _ => false end.

(** [len(v)]. *)
Definition py_len (v : json) : res Z :=
  match v with
  | JStr s => Ret (Z.of_nat (length s))
  | JArr l => Ret (Z.of_nat (length l))
  | JObj d => Ret (Z.of_nat (length d))
  | _ => Raise TypeError
  end.

(** [v == s] for a [str] [s]. *)
Definition eq_str (v : json) (s : pystr) : bool :=
  match v with
  | JStr t => str_eqb t s
  | _ => false
  end.

(** *** Dictionaries *)

Fixpoint dict_get (k : pystr) (d : dict) : option json :=
  match d with
  | [] => None
  | (k', v) :: d' => if str_eqb k' k then Some v else dict_get k d'
  end.

(** [d[k] = v]: an existing key keeps its place, a new key goes last. *)
Fixpoint dict_set (k : pystr) (v : json) (d : dict) : dict :=
  match d with
  | [] => [(k, v)]
  | (k', v') :: d' =>
      if str_eqb k' k then (k', v) :: d' else (k', v') :: dict_set k v d'
  end.

Definition dict_has (k : pystr) (d : dict) : bool :=
  match dict_get k d with Some _ => true | None => false end.

(** [d.get(k, default)] on a value known to be a dict. *)
Definition opt_default (o : option json) (default : json) : json :=
  match o with Some x => x | None => default end.

(** [v.get(k, default)]: only a dict has the method. *)
Definition py_get (v : json) (k : pystr) (default : json) : res json :=
  match v with
  | JObj d => Ret (opt_default (dict_get k d) default)
  | _ => Raise AttributeError
  end.

(** *** Strings *)

Fixpoint starts_with (p s : pystr) : bool :=
  match p, s with
  | [], _ => true
  | _ :: _, [] => false
  | a :: p', b :: s' => N.eqb a b && starts_with p' s'
  end.

(** [p in s] for two strings. *)
Fixpoint is_substring (p s : pystr) : bool :=
  starts_with p s ||
  match s with
  | [] => false
  | _ :: s' => is_substring p s'
  end.

(** [s.replace(old, new)] for a non-empty [old]: occurrences are found left
    to right and do not overlap.  [skip] counts the characters of a matched
    occurrence that are still to be dropped. *)
Fixpoint replace_from (old new s : pystr) (skip : nat) : pystr :=
  match s with
  | [] => []
  | c :: s' =>
      match skip with
      | S k => replace_from old new s' k
      | O =>
          if starts_with old s
          then new ++ replace_from old new s' (length old - 1)
          else c :: replace_from old new s' 0
      end
  end.

(** [s.replace(old, new)]; an empty [old] matches before every character
    and at the end. *)
Definition replace (old new s : pystr) : pystr :=
  match old with
  | [] => flat_map (fun c => new ++ [c]) s ++ new
  | _ :: _ => replace_from old new s 0
  end.

(** [c.isspace()]. *)
Definition isspace (c : pychar) : bool :=
  (((9 <=? c) && (c <=? 13)) || ((28 <=? c) && (c <=? 32))
   || (c =? 133) || (c =? 160) || (c =? 5760)
   || ((8192 <=? c) && (c <=? 8202))
   || (c =? 8232) || (c =? 8233) || (c =? 8239) || (c =? 8287)
   || (c =? 12288))%N.

Fixpoint lstrip (p : pychar -> bool) (s : pystr) : pystr :=
  match s with
  | [] => []
  | c :: s' => if p c then lstrip p s' else s
  end.

Definition rstrip (p : pychar -> bool) (s : pystr) : pystr :=
  rev (lstrip p (rev s)).

(** [s.strip()] is [strip_by isspace s]; [s.strip('.')] is
    [strip_by (N.eqb 46) s]. *)
Definition strip_by (p : pychar -> bool) (s : pystr) : pystr :=
  rstrip p (lstrip p s).

(** [str(n)] for an [int]. *)
Definition str_of_int (n : Z) : pystr :=
  lit (NilZero.string_of_int (Z.to_int n)).

(** [x in v] for a [str] [x]: substring of a string, element of a list, key
    of a dict. *)
Definition py_in (x : pystr) (v : json) : res bool :=
  match v with
  | JStr s => Ret (is_substring x s)
  | JArr l => Ret (existsb (fun e => eq_str e x) l)
  | JObj d => Ret (dict_has x d)
  | _ => Raise TypeError
  end.

(** [v[k]] for a [str] [k]. *)
Definition py_getitem (v : json) (k : pystr) : res json :=
  match v with
  | JObj d => match dict_get k d with Some x => Ret x | None => Raise KeyError end
  | _ => Raise TypeError
  end.

(** [v[0]]. *)
Definition py_first (v : json) : res json :=
  match v with
  | JArr (x :: _) => Ret x
  | JArr [] => Raise IndexError
  | JStr (c :: _) => Ret (JStr [c])
  | JStr [] => Raise IndexError
  | JObj _ => Raise KeyError
  | _ => Raise TypeError
  end.

(** What iterating over [v] yields ([for x in v], [list.extend(v)]). *)
Definition py_iter (v : json) : res (list json) :=
  match v with
  | JArr l => Ret l
  | JStr s => Ret (map (fun c => JStr [c]) s)
  | JObj d => Ret (map (fun kv => JStr (fst kv)) d)
  | _ => Raise TypeError
  end.

(** [os.path.join(a, b)] on POSIX. *)
Definition path_join (a b : pystr) : pystr :=
  if starts_with (lit "/") b then b
  else match rev a with
       | [] => b
       | c :: _ => if N.eqb c 47 then a ++ b else a ++ lit "/" ++ b
       end.

(** [os.path.isabs(p)] on POSIX. *)
Definition isabs (p : pystr) : bool := starts_with (lit "/") p.

End Py.

(* ================================================================== *)
(** ** The outside world                                               *)
(* ================================================================== *)

Module Env.
Import Py.

(** What [requests.get(url, headers=..., timeout=15)] comes to.  The fixed
    header set does not vary, so a request is identified by its URL. *)
Inductive http_outcome : Type :=
| ConnError
    (** [requests.get] itself raises: no connection, timeout, bad URL *)
| Response (status_code : Z) (body : option json)
    (** a response arrived; [body] is what [response.json()] returns, or
        [None] when the text is not JSON and [response.json()] raises *).

(** [response.raise_for_status()] raises for 4xx and 5xx. *)
Definition raises_for_status (status_code : Z) : bool :=
  (400 <=? status_code) && (status_code <? 600).

(** A path of the file system that exists. *)
Inductive file : Type :=
| JsonFile (v : json)   (** [json.load] of the opened file returns [v] *)
| Unreadable            (** [open] or [json.load] raises *).

Inductive event : Type :=
| Get (url : pystr)
| Sleep.

(** What a run does not change. *)
Record env : Type := {
  PROJECT_ROOT : pystr;             (** parent of the scripts' [bin] directory *)
  repr : json -> pystr;             (** [str(v)] for a float, list or dict *)
  http : pystr -> http_outcome;     (** the upstream servers *)
  writable : pystr -> bool;         (** [open(path, 'w')] and the dump succeed *)
  opens : pystr -> bool;            (** [open(path, 'w')] succeeds, whatever the
                                        dump does afterwards *)
  makedirs_ok : pystr -> bool       (** [os.makedirs(path, exist_ok=True)] succeeds *)
}.

(** What a run changes or accumulates. *)
Record world : Type := {
  fs : pystr -> option file;
  log : list event
}.

Definition M (A : Type) : Type := world -> res A * world.

Definition ret {A} (a : A) : M A := fun w => (Ret a, w).

Definition bind {A B} (m : M A) (k : A -> M B) : M B :=
  fun w =>
    match m w with
    | (Ret a, w') => k a w'
    | (Raise e, w') => (Raise e, w')
    end.

Definition lift {A} (r : res A) : M A := fun w => (r, w).

Definition emit (e : event) : M unit :=
  fun w => (Ret tt, {| fs := fs w; log := log w ++ [e] |}).

Definition requests_get (E : env) (url : pystr) : M http_outcome :=
  bind (emit (Get url)) (fun _ => ret (http E url)).

Definition sleep : M unit := emit Sleep.

(** The file system after [path] has been given the content [f]. *)
Definition with_file (path : pystr) (f : file) (w : world) : world :=
  {| fs := fun p => if str_eqb p path then Some f else fs w p;
     log := log w |}.

(** [with open(path, 'w') as f: json.dump(data, f, ...)] inside a [try]:
    [true] when nothing was raised.  Mode ['w'] empties the file as soon as
    it is opened, so a dump that raises afterwards (a string that cannot be
    encoded as UTF-8, a full disk) leaves an empty or cut-off text behind,
    which [json.load] rejects; an [open] that raises leaves the path as it
    was. *)
Definition write_json (E : env) (path : pystr) (data : json) : M bool :=
  fun w =>
    if writable E path
    then (Ret true, with_file path (JsonFile data) w)
    else if opens E path
    then (Ret false, with_file path Unreadable w)
    else (Ret false, w).

(** [str(v)], as an f-string formats [{v}]. *)
Definition py_str (E : env) (v : json) : pystr :=
  match v with
  | JNull => lit "None"
  | JBool true => lit "True"
  | JBool false => lit "False"
  | JInt n => str_of_int n
  | JStr s => s
  | _ => repr E v
  end.

(** The URLs requested, in order. *)
Definition gets (evs : list event) : list pystr :=
  flat_map (fun e => match e with Get u => [u] | Sleep => [] end) evs.

End Env.

Declare Scope py_scope.
Delimit Scope py_scope with py.
Notation "x <- m ;; k" := (Env.bind m (fun x => k))
  (at level 100, m at next level, right associativity) : py_scope.
Notation "m ;;; k" := (Env.bind m (fun _ => k))
  (at level 100, right associativity) : py_scope.
Notation "x <~ r ;; k" := (Py.rbind r (fun x => k))
  (at level 100, r at next level, right associativity) : py_scope.

(* ================================================================== *)
(** ** bin/fetch_all_pages.py                                          *)
(* ================================================================== *)

Module FetchAllPages.
Import Py Env.
Local Open Scope py_scope.

Section Script.
Variable E : env.

(** The loop of [get_site_api_url]. *)
Fixpoint find_site (site_name : pystr) (sites : list json) : res json :=
  match sites with
  | [] => Ret JNull
  | site :: rest =>
      name <~ py_get site (lit "name") JNull ;;
      if eq_str name site_name
      then py_get site (lit "api") (JStr [])
      else find_site site_name rest
  end.

(** Everything is inside one [try]; whatever is raised gives [None]. *)
Definition get_site_api_url (site_name : pystr) (w : world) : json :=
  let config_file := path_join (PROJECT_ROOT E) (lit "tvbox_config.json") in
  match fs w config_file with
  | Some (JsonFile config) =>
      match (sites <~ py_get config (lit "sites") (JArr []) ;;
             items <~ py_iter sites ;;
             find_site site_name items) with
      | Ret v => v
      | Raise _ => JNull
      end
  | _ => JNull
  end.

Definition page_url (api_url : json) (has_query : bool) (page : Z) : pystr :=
  py_str E api_url ++ lit (if has_query then "&pg=" else "?pg=")
    ++ str_of_int page.

(** What the [try] block of [fetch_page] returns. *)
Definition decode_page (r : http_outcome) : json :=
  match r with
  | ConnError => JNull
  | Response status_code body =>
      if raises_for_status status_code then JNull
      else match body with
           | Some data => data
           | None => JNull
           end
  end.

Definition fetch_page (api_url : json) (page : Z) : M json :=
  has_query <- lift (py_in (lit "?") api_url) ;;
  r <- requests_get E (page_url api_url has_query page) ;;
  ret (decode_page r).

(** [pagecount <= 1]. *)
Definition le_one (pagecount : json) : res bool :=
  match pagecount with
  | JInt n => Ret (n <=? 1)
  | JBool _ => Ret true
  | JFloat f => Ret (PrimFloat.leb f 1%float)
  | _ => Raise TypeError
  end.

(** [range(2, pagecount + 1)]. *)
Definition page_range (pagecount : json) : res (list Z) :=
  match pagecount with
  | JInt n => Ret (map Z.of_nat (seq 2 (Z.to_nat n - 1)))
  | JBool _ => Ret []
  | _ => Raise TypeError
  end.

(** [v.copy()]. *)
Definition py_copy (v : json) : res json :=
  match v with
  | JArr l => Ret (JArr l)
  | JObj d => Ret (JObj d)
  | _ => Raise AttributeError
  end.

(** [all_videos.extend(page_videos)]. *)
Definition py_extend (all_videos page_videos : json) : res json :=
  match all_videos with
  | JArr l => items <~ py_iter page_videos ;; Ret (JArr (l ++ items))
  | _ => Raise AttributeError
  end.

(** What one fetched page adds to the accumulator. *)
Definition add_page (all_videos page_data : json) : res json :=
  if truthy page_data then
    page_videos <~ py_get page_data (lit "list") (JArr []) ;;
    if truthy page_videos then py_extend all_videos page_videos
    else Ret all_videos
  else Ret all_videos.

(** The [for page in range(2, pagecount + 1)] loop. *)
Fixpoint fetch_rest (api_url : json) (pagecount : Z) (pages : list Z)
    (all_videos : json) : M json :=
  match pages with
  | [] => ret all_videos
  | page :: rest =>
      page_data <- fetch_page api_url page ;;
      all_videos' <- lift (add_page all_videos page_data) ;;
      (if page <? pagecount then sleep else ret tt) ;;;
      fetch_rest api_url pagecount rest all_videos'
  end.

Definition int_of (pagecount : json) : Z :=
  match pagecount with JInt n => n | _ => 0 end.

(** [fetch_all_pages] from the point where the first page and the API URL
    are at hand. *)
Definition merge_all_pages (first_page_data api_url : json) : M json :=
  pagecount <- lift (py_get first_page_data (lit "pagecount") (JInt 1)) ;;
  first_list <- lift (py_get first_page_data (lit "list") (JArr [])) ;;
  lift (py_len first_list) ;;;
  single <- lift (le_one pagecount) ;;
  if (single : bool) then ret first_page_data
  else
    all_videos <- lift (py_copy first_list) ;;
    pages <- lift (page_range pagecount) ;;
    all_videos <- fetch_rest api_url (int_of pagecount) pages all_videos ;;
    total <- lift (py_len all_videos) ;;
    match first_page_data with
    | JObj d =>
        ret (JObj (dict_set (lit "total") (JInt total)
                     (dict_set (lit "page") (JInt 1)
                        (dict_set (lit "list") all_videos d))))
    | _ => lift (Raise AttributeError)
    end.

Definition fetch_all_pages (site_file : pystr) : M json :=
  fun w =>
    let site_dir := path_join (PROJECT_ROOT E) (lit "sites") in
    let filepath := path_join site_dir site_file in
    match fs w filepath with
    | Some (JsonFile first_page_data) =>
        let site_name := replace (lit ".json") [] site_file in
        let api_url := get_site_api_url site_name w in
        if negb (truthy api_url) then (Ret JNull, w)
        else merge_all_pages first_page_data api_url w
    | _ => (Ret JNull, w)
    end.

End Script.
End FetchAllPages.

(* ================================================================== *)
(** ** bin/fetch_play_urls.py                                          *)
(* ================================================================== *)

Module FetchPlayUrls.
Import Py Env.
Local Open Scope py_scope.

Section Script.
Variable E : env.

(** The loop of [get_site_api_url]. *)
Fixpoint find_site (site_name : pystr) (sites : list json) : res json :=
  match sites with
  | [] => Ret JNull
  | site :: rest =>
      name <~ py_get site (lit "name") JNull ;;
      if eq_str name site_name
      then py_get site (lit "api") (JStr [])
      else find_site site_name rest
  end.

(** Everything is inside one [try]; whatever is raised gives [None]. *)
Definition get_site_api_url (site_file : pystr) (w : world) : json :=
  let config_file := path_join (PROJECT_ROOT E) (lit "tvbox_config.json") in
  match fs w config_file with
  | Some (JsonFile config) =>
      match (sites <~ py_get config (lit "sites") (JArr []) ;;
             let site_name := replace (lit ".json") [] site_file in
             items <~ py_iter sites ;;
             find_site site_name items) with
      | Ret v => v
      | Raise _ => JNull
      end
  | _ => JNull
  end.

Definition detail_url (api_url : json) (has_query : bool) (vod_id : json)
  : pystr :=
  py_str E api_url ++ lit (if has_query then "&ac=detail&ids=" else "?ac=detail&ids=")
    ++ py_str E vod_id.

(** [data['list'][0]] when [data] is a dict with a non-empty ['list'];
    inside the [try], so what it raises gives [None]. *)
Definition first_detail (data : json) : json :=
  match data with
  | JObj d =>
      match dict_get (lit "list") d with
      | Some l =>
          if truthy l
          then match py_first l with
               | Ret x => x
               | Raise _ => JNull
               end
          else JNull
      | None => JNull
      end
  | _ => JNull
  end.

(** What the [try] block of [fetch_vod_detail] returns. *)
Definition decode_detail (r : http_outcome) : json :=
  match r with
  | ConnError => JNull
  | Response status_code body =>
      if raises_for_status status_code then JNull
      else match body with
           | Some data => first_detail data
           | None => JNull
           end
  end.

Definition fetch_vod_detail (api_url vod_id : json) : M json :=
  has_query <- lift (py_in (lit "?") api_url) ;;
  r <- requests_get E (detail_url api_url has_query vod_id) ;;
  ret (decode_detail r).

(** [if k in detail: video[k] = detail[k]]. *)
Definition copy_item (k : pystr) (detail : json) (video : dict) : res dict :=
  present <~ py_in k detail ;;
  if (present : bool)
  then x <~ py_getitem detail k ;; Ret (dict_set k x video)
  else Ret video.

(** [if k in detail and detail.get(k): video[k] = detail[k]]. *)
Definition copy_item_if_set (k : pystr) (detail : json) (video : dict)
  : res dict :=
  present <~ py_in k detail ;;
  if (present : bool)
  then
    x <~ py_get detail k JNull ;;
    if truthy x
    then y <~ py_getitem detail k ;; Ret (dict_set k y video)
    else Ret video
  else Ret video.

(** [if k in detail: video[k] = detail.get(k, '')]. *)
Definition copy_item_get (k : pystr) (detail : json) (video : dict)
  : res dict :=
  present <~ py_in k detail ;;
  if (present : bool)
  then x <~ py_get detail k (JStr []) ;; Ret (dict_set k x video)
  else Ret video.

(** The body of [if detail:] in [update_site_with_play_urls]: the six
    assignments to [video], in order. *)
Definition merge_detail (video : dict) (detail : json) : res dict :=
  video <~ copy_item (lit "vod_play_from") detail video ;;
  video <~ copy_item (lit "vod_play_url") detail video ;;
  video <~ copy_item_if_set (lit "vod_content") detail video ;;
  video <~ copy_item_get (lit "vod_actor") detail video ;;
  video <~ copy_item_get (lit "vod_director") detail video ;;
  copy_item_get (lit "vod_score") detail video.

(** [vod_name[:30]], evaluated for the progress line. *)
Definition py_slice (v : json) : res unit :=
  match v with
  | JStr _ | JArr _ => Ret tt
  | _ => Raise TypeError
  end.

(** The default of [video.get('vod_name', ...)], two CJK characters. *)
Definition unknown_name : pystr := [26410%N; 30693%N].

(** One iteration of the loop over [enumerate(video_list, 1)]: the video as
    the iteration leaves it, and the two counters. *)
Definition process_video (api_url : json) (total i : Z) (video : json)
    (success_count fail_count : Z) : M (json * (Z * Z)) :=
  match video with
  | JObj v =>
      let vod_id := opt_default (dict_get (lit "vod_id") v) JNull in
      let vod_name := opt_default (dict_get (lit "vod_name") v) (JStr unknown_name) in
      if negb (truthy vod_id) then ret (video, (success_count, fail_count))
      else if dict_has (lit "vod_play_url") v
              && truthy (opt_default (dict_get (lit "vod_play_url") v) JNull)
      then
        lift (py_slice vod_name) ;;;
        ret (video, (success_count + 1, fail_count))
      else
        lift (py_slice vod_name) ;;;
        detail <- fetch_vod_detail api_url vod_id ;;
        r <- (if truthy detail
              then v' <- lift (merge_detail v detail) ;;
                   ret (JObj v', (success_count + 1, fail_count))
              else ret (video, (success_count, fail_count + 1))) ;;
        (if i <? total then sleep else ret tt) ;;;
        ret r
  | _ => ret (video, (success_count, fail_count))
  end.

Fixpoint process_videos (api_url : json) (total i : Z) (videos : list json)
    (success_count fail_count : Z) : M (list json * (Z * Z)) :=
  match videos with
  | [] => ret ([], (success_count, fail_count))
  | video :: rest =>
      r <- process_video api_url total i video success_count fail_count ;;
      rs <- process_videos api_url total (i + 1) rest (fst (snd r)) (snd (snd r)) ;;
      ret (fst r :: fst rs, snd rs)
  end.

(** [site_data] after the loop: the videos were updated in place, inside
    the list that [site_data['list']] is. *)
Definition with_videos (site_data video_list : json) (videos : list json)
  : json :=
  match site_data, video_list with
  | JObj d, JArr _ => JObj (dict_set (lit "list") (JArr videos) d)
  | _, _ => site_data
  end.

(** [update_site_with_play_urls] from the point where the file is read and
    the API URL is at hand. *)
Definition backfill (filepath : pystr) (site_data api_url : json)
  : M (Z * Z * Z) :=
  video_list <- lift (py_get site_data (lit "list") (JArr [])) ;;
  if negb (truthy video_list) then ret (0, 0, 0)
  else
    total <- lift (py_len video_list) ;;
    videos <- lift (py_iter video_list) ;;
    r <- process_videos api_url total 1 videos 0 0 ;;
    ok <- write_json E filepath (with_videos site_data video_list (fst r)) ;;
    if (ok : bool) then ret (fst (snd r), snd (snd r), total)
    else ret (0, 0, 0).

Definition update_site_with_play_urls (site_file site_dir : pystr)
  : M (Z * Z * Z) :=
  fun w =>
    let site_dir :=
      if isabs site_dir then site_dir
      else path_join (PROJECT_ROOT E) site_dir in
    let filepath := path_join site_dir site_file in
    match fs w filepath with
    | Some (JsonFile site_data) =>
        let api_url := get_site_api_url site_file w in
        if negb (truthy api_url) then (Ret (0, 0, 0), w)
        else backfill filepath site_data api_url w
    | _ => (Ret (0, 0, 0), w)
    end.

End Script.
End FetchPlayUrls.

(* ================================================================== *)
(** ** parse_sites.py                                                  *)
(* ================================================================== *)

Module ParseSites.
Import Py Env.
Local Open Scope py_scope.

(** Slash, backslash, colon, asterisk, question mark, double quote,
    less-than, greater-than and vertical bar. *)
Definition invalid_chars : list pychar :=
  [47; 92; 58; 42; 63; 34; 60; 62; 124]%N.

Definition sanitize_filename (name : pystr) : pystr :=
  let name :=
    fold_left (fun name char => replace [char] (lit "_") name)
      invalid_chars name in
  let name := strip_by (N.eqb 46) (strip_by isspace name) in
  match name with
  | [] => lit "unknown"
  | _ :: _ => name
  end.

Section Script.
Variable E : env.

(** The whole body is inside a [try]: every failure gives [None].
    [requests] takes [str(api_url)] as the URL. *)
Definition fetch_site_config (api_url site_name : json) : M json :=
  r <- requests_get E (py_str E api_url) ;;
  ret (match r with
       | ConnError => JNull
       | Response status_code body =>
           if raises_for_status status_code then JNull
           else match body with
                | Some config => config
                | None => JNull
                end
       end).

(** [os.makedirs] and [sanitize_filename] are called outside the [try];
    a [filename] that is not a [str] has no [replace]. *)
Definition save_site_config (config filename : json) (output_dir : pystr)
  : M bool :=
  (if makedirs_ok E output_dir then ret tt else lift (Raise OSError)) ;;;
  match filename with
  | JStr name =>
      let safe_filename := sanitize_filename name in
      let filepath := path_join output_dir (safe_filename ++ lit ".json") in
      write_json E filepath config
  | _ => lift (Raise AttributeError)
  end.

(** One iteration of the loop over [enumerate(sites, 1)]. *)
Definition process_site (output_dir : pystr) (total i : Z) (site : json)
    (success_count fail_count : Z) : M (Z * Z) :=
  match site with
  | JObj s =>
      let site_name :=
        opt_default (dict_get (lit "name") s) (JStr (lit "site_" ++ str_of_int i)) in
      let api_url := opt_default (dict_get (lit "api") s) (JStr []) in
      if negb (truthy api_url) then ret (success_count, fail_count + 1)
      else
        site_config <- fetch_site_config api_url site_name ;;
        r <- (if truthy site_config
              then saved <- save_site_config site_config site_name output_dir ;;
                   if (saved : bool) then ret (success_count + 1, fail_count)
                   else ret (success_count, fail_count + 1)
              else ret (success_count, fail_count + 1)) ;;
        (if i <? total then sleep else ret tt) ;;;
        ret r
  | _ => ret (success_count, fail_count + 1)
  end.

Fixpoint process_sites (output_dir : pystr) (total i : Z) (sites : list json)
    (success_count fail_count : Z) : M (Z * Z) :=
  match sites with
  | [] => ret (success_count, fail_count)
  | site :: rest =>
      r <- process_site output_dir total i site success_count fail_count ;;
      process_sites output_dir total (i + 1) rest (fst r) (snd r)
  end.

Definition parse_all_sites (config_file output_dir : pystr) : M (Z * Z * Z) :=
  fun w =>
    match fs w config_file with
    | Some (JsonFile config) =>
        (sites <- lift (py_get config (lit "sites") (JArr [])) ;;
         if negb (truthy sites) then ret (0, 0, 0)
         else
           total <- lift (py_len sites) ;;
           items <- lift (py_iter sites) ;;
           r <- process_sites output_dir total 1 items 0 0 ;;
           ret (fst r, snd r, total)) w
    | _ => (Ret (0, 0, 0), w)
    end.

End Script.
End ParseSites.

(* ================================================================== *)
(** ** bin/parse_api.py                                                *)
(* ================================================================== *)

Module ParseApi.
Import Py Env.
Local Open Scope py_scope.

(** The format check of a parsed body: [len] of the two entries of a dict
    is taken for the report, and what it raises is caught by the outer
    [except Exception]. *)
Definition check_config (config : json) : json :=
  match config with
  | JObj d =>
      match (sites_count <~ py_len (opt_default (dict_get (lit "sites") d) (JArr [])) ;;
             lives_count <~ py_len (opt_default (dict_get (lit "lives") d) (JArr [])) ;;
             Ret config) with
      | Ret c => c
      | Raise _ => JNull
      end
  | JArr _ => config
  | _ => JNull
  end.

Section Script.
Variable E : env.

Definition parse_tvbox_api (api_url : pystr) : M json :=
  r <- requests_get E api_url ;;
  ret (match r with
       | ConnError => JNull
       | Response status_code body =>
           if raises_for_status status_code then JNull
           else match body with
                | Some config => check_config config
                | None => JNull
                end
       end).

End Script.
End ParseApi.

(* ================================================================== *)
(** ** What the claims speak of                                        *)
(* ================================================================== *)

Module PageSpec.
Import Py Env FetchAllPages.

Section Pages.
Variable E : env.

(** A page response of the data model: a dict whose ['list'], when there
    is one, is a list. *)
Definition page_ok (v : json) : bool :=
  match v with
  | JObj d =>
      match dict_get (lit "list") d with
      | None | Some (JArr _) => true
      | Some _ => false
      end
  | _ => false
  end.

(** The records of a page; none for anything that is not a page. *)
Definition records (v : json) : list json :=
  match v with
  | JObj d =>
      match dict_get (lit "list") d with
      | Some (JArr l) => l
      | _ => []
      end
  | _ => []
  end.

(** The URL [fetch_page] requests for [page] when the API URL is the
    string [api]. *)
Definition url_of (api : pystr) (page : Z) : pystr :=
  page_url E (JStr api) (is_substring (lit "?") api) page.

(** The fetch of [page] succeeds and delivers a page response. *)
Definition fetch_ok (api : pystr) (page : Z) : bool :=
  match http E (url_of api page) with
  | Response status_code (Some data) =>
      negb (raises_for_status status_code) && page_ok data
  | _ => false
  end.

(** The fetch of [page] fails: network error, error status, or a body that
    is not JSON. *)
Definition fetch_failed (api : pystr) (page : Z) : bool :=
  match http E (url_of api page) with
  | ConnError => true
  | Response status_code body =>
      raises_for_status status_code
      || match body with None => true | Some _ => false end
  end.

(** A failed fetch as the claim on a failing page words it: a network
    error, a status outside 200..299, or a body that is not JSON. *)
Definition fetch_failed_as_claimed (api : pystr) (page : Z) : bool :=
  match http E (url_of api page) with
  | ConnError => true
  | Response status_code body =>
      negb ((200 <=? status_code) && (status_code <? 300))
      || match body with None => true | Some _ => false end
  end.

(** What [fetch_page] returns for [page]. *)
Definition fetched (api : pystr) (page : Z) : json :=
  decode_page (http E (url_of api page)).

(** The pages [2 .. n], ascending. *)
Definition pages_2_to (n : Z) : list Z :=
  map Z.of_nat (seq 2 (Z.to_nat n - 1)).

(** The first page is on disk as [site_file], holding the dict [d], and
    the root config gives the non-empty string [api] for the site. *)
Definition ready (w : world) (site_file : pystr) (d : dict) (api : pystr)
  : Prop :=
  fs w (path_join (path_join (PROJECT_ROOT E) (lit "sites")) site_file)
    = Some (JsonFile (JObj d))
  /\ get_site_api_url E (replace (lit ".json") [] site_file) w = JStr api
  /\ api <> [].

(** The value of ['pagecount'], 1 when the key is absent. *)
Definition pagecount_of (d : dict) : json :=
  opt_default (dict_get (lit "pagecount") d) (JInt 1).

(** What the loop logs for [pages]: one request each, and a pause after
    every page but the last. *)
Definition page_events (api : pystr) (n : Z) (pages : list Z) : list event :=
  flat_map (fun p => Get (url_of api p) :: if p <? n then [Sleep] else [])
    pages.

End Pages.
End PageSpec.

Module NameSpec.
Import Py ParseSites.

(** [s] does not begin with a character satisfying [p]. *)
Definition starts_clean (p : pychar -> bool) (s : pystr) : bool :=
  match s with
  | [] => true
  | c :: _ => negb (p c)
  end.

(** [s] does not end with a character satisfying [p]. *)
Definition ends_clean (p : pychar -> bool) (s : pystr) : bool :=
  starts_clean p (rev s).

Definition is_dot (c : pychar) : bool := N.eqb 46 c.

Definition is_invalid (c : pychar) : bool :=
  existsb (N.eqb c) invalid_chars.

(** What the nine replacements together do to one character. *)
Definition subst_char (c : pychar) : pychar :=
  if is_invalid c then 95%N else c.

(** The file name with its trailing [.json] removed, as the claim on the
    endpoint lookup words it. *)
Definition base_name (site_file : pystr) : pystr :=
  if starts_with (rev (lit ".json")) (rev site_file)
  then firstn (length site_file - 5) site_file
  else site_file.

End NameSpec.

Module ConfigSpec.
Import Py Env.

(** A value that has a length. *)
Definition sized (v : json) : bool :=
  match v with
  | JStr _ | JArr _ | JObj _ => true
  | _ => false
  end.

(** A parsed body the config fetcher hands back: a list, or a dict whose
    ['sites'] and ['lives'], where present, have a length. *)
Definition acceptable (config : json) : bool :=
  match config with
  | JArr _ => true
  | JObj d =>
      sized (opt_default (dict_get (lit "sites") d) (JArr []))
      && sized (opt_default (dict_get (lit "lives") d) (JArr []))
  | _ => false
  end.

(** The request succeeds and its body parses as JSON. *)
Definition delivered (E : env) (url : pystr) : option json :=
  match http E url with
  | Response status_code (Some config) =>
      if raises_for_status status_code then None else Some config
  | _ => None
  end.

(** An entry of the site list that the enumerator can name a file after:
    a dict whose ['name'], when there is one, is a string; an entry that is
    not a dict is only counted. *)
Definition site_ok (site : json) : bool :=
  match site with
  | JObj s =>
      match dict_get (lit "name") s with
      | None | Some (JStr _) => true
      | Some _ => false
      end
  | _ => true
  end.

End ConfigSpec.

Module BackfillSpec.
Import Py Env FetchPlayUrls.

(** The keys the backfill copies from a detail. *)
Definition whitelist : list pystr :=
  [lit "vod_play_from"; lit "vod_play_url"; lit "vod_content";
   lit "vod_actor"; lit "vod_director"; lit "vod_score"].

(** The whitelisted keys that are copied whatever their value. *)
Definition unguarded : list pystr :=
  [lit "vod_play_from"; lit "vod_play_url";
   lit "vod_actor"; lit "vod_director"; lit "vod_score"].

(** The field [key] of a record is present and not empty. *)
Definition populated (key : pystr) (video : dict) : bool :=
  truthy (opt_default (dict_get key video) JNull).

(** [video] with [key] taken from [detail] when [detail] has it. *)
Definition put (detail : dict) (key : pystr) (video : dict) : dict :=
  match dict_get key detail with
  | Some x => dict_set key x video
  | None => video
  end.

(** The same, but only for a value that is not empty. *)
Definition put_if_set (detail : dict) (key : pystr) (video : dict) : dict :=
  match dict_get key detail with
  | Some x => if truthy x then dict_set key x video else video
  | None => video
  end.

(** The record after the six assignments, for a detail that is a dict. *)
Definition merged (detail video : dict) : dict :=
  put detail (lit "vod_score")
    (put detail (lit "vod_director")
       (put detail (lit "vod_actor")
          (put_if_set detail (lit "vod_content")
             (put detail (lit "vod_play_url")
                (put detail (lit "vod_play_from") video))))).

(** The path [update_site_with_play_urls] reads and writes. *)
Definition site_path (E : env) (site_dir site_file : pystr) : pystr :=
  path_join (if isabs site_dir then site_dir
             else path_join (PROJECT_ROOT E) site_dir) site_file.


Section Results.
Variable E : env.
Local Open Scope py_scope.

(** What [fetch_vod_detail] returns, the world left out. *)
Definition detail_of (api_url vod_id : json) : res json :=
  has_query <~ py_in (lit "?") api_url ;;
  Ret (decode_detail (http E (detail_url E api_url has_query vod_id))).

(** What one iteration of the loop over the videos comes to, the world
    left out. *)
Definition video_result (api_url video : json) (success_count fail_count : Z)
  : res (json * (Z * Z)) :=
  match video with
  | JObj v =>
      let vod_id := opt_default (dict_get (lit "vod_id") v) JNull in
      let vod_name := opt_default (dict_get (lit "vod_name") v) (JStr unknown_name) in
      if negb (truthy vod_id) then Ret (video, (success_count, fail_count))
      else if populated (lit "vod_play_url") v
      then
        _ <~ py_slice vod_name ;;
        Ret (video, (success_count + 1, fail_count))
      else
        _ <~ py_slice vod_name ;;
        detail <~ detail_of api_url vod_id ;;
        if truthy detail
        then v' <~ merge_detail v detail ;;
             Ret (JObj v', (success_count + 1, fail_count))
        else Ret (video, (success_count, fail_count + 1))
  | _ => Ret (video, (success_count, fail_count))
  end.

(** What the whole loop comes to, the world left out. *)
Fixpoint videos_result (api_url : json) (videos : list json)
    (success_count fail_count : Z) : res (list json * (Z * Z)) :=
  match videos with
  | [] => Ret ([], (success_count, fail_count))
  | video :: rest =>
      r <~ video_result api_url video success_count fail_count ;;
      rs <~ videos_result api_url rest (fst (snd r)) (snd (snd r)) ;;
      Ret (fst r :: fst rs, snd rs)
  end.

End Results.

End BackfillSpec.

(* ================================================================== *)
(** ** The entry points                                                *)
(* ================================================================== *)

Module PyText.
Import Py.

(** [s.endswith(suffix)]. *)
Definition ends_with (suffix s : pystr) : bool :=
  starts_with (rev suffix) (rev s).

End PyText.

(** [save_complete_data] and [main] of bin/fetch_all_pages.py.  [sys.exit]
    is modelled by returning the exit code. *)
Module FetchAllPagesMain.
Import Py Env PyText FetchAllPages.
Local Open Scope py_scope.

Section Script.
Variable E : env.

Definition save_complete_data (data : json) (site_file : pystr) : M bool :=
  let site_dir := path_join (PROJECT_ROOT E) (lit "sites") in
  let filepath := path_join site_dir site_file in
  write_json E filepath data.

(** [argv] is [sys.argv]. *)
Definition main (argv : list pystr) : M Z :=
  match argv with
  | _ :: site_file :: _ =>
      let site_file :=
        if ends_with (lit ".json") site_file then site_file
        else site_file ++ lit ".json" in
      complete_data <- fetch_all_pages E site_file ;;
      if truthy complete_data
      then saved <- save_complete_data complete_data site_file ;;
           ret (if (saved : bool) then 0 else 1)
      else ret 1
  | _ => ret 1
  end.

End Script.
End FetchAllPagesMain.

(** [save_config] and [main] of bin/parse_api.py. *)
Module ParseApiMain.
Import Py Env ParseApi.
Local Open Scope py_scope.

(** [[line.strip() for line in lines if line.strip()]]. *)
Definition stripped_lines (lines : list pystr) : list pystr :=
  map (strip_by isspace)
    (filter (fun line => truthy (JStr (strip_by isspace line))) lines).

Section Script.
Variable E : env.

Definition save_config (config : json) (output_file : pystr) : M bool :=
  let output_file :=
    if isabs output_file then output_file
    else path_join (PROJECT_ROOT E) output_file in
  write_json E output_file config.

(** [key_file] is what reading [api-key.txt] comes to: [None] when the
    file does not exist or reading it raises, otherwise the lines that
    [f.readlines()] returns. *)
Definition main (key_file : option (list pystr)) : M Z :=
  match key_file with
  | None => ret 1
  | Some lines =>
      match stripped_lines lines with
      | [] => ret 1
      | api_url :: _ =>
          config <- parse_tvbox_api E api_url ;;
          if truthy config
          then saved <- save_config config (lit "tvbox_config.json") ;;
               ret (if (saved : bool) then 0 else 1)
          else ret 1
      end
  end.

End Script.
End ParseApiMain.

(** What the further properties speak of. *)
Module MoreSpec.
Import Py Env PyText FetchPlayUrls BackfillSpec.

Section More.
Variable E : env.

(** The events of requests for [urls] with a pause between any two. *)
Fixpoint paced (urls : list pystr) : list event :=
  match urls with
  | [] => []
  | [u] => [Get u]
  | u :: rest => Get u :: Sleep :: paced rest
  end.

(** A record for which the backfill fetches a detail: a dict with a
    non-empty id and no populated playback URL. *)
Definition needs_detail (video : json) : bool :=
  match video with
  | JObj v =>
      truthy (opt_default (dict_get (lit "vod_id") v) JNull)
      && negb (populated (lit "vod_play_url") v)
  | _ => false
  end.

(** The URL requested for such a record when the API URL is the string
    [api]. *)
Definition detail_request (api : pystr) (video : json) : pystr :=
  match video with
  | JObj v =>
      detail_url E (JStr api) (is_substring (lit "?") api)
        (opt_default (dict_get (lit "vod_id") v) JNull)
  | _ => []
  end.

(** A record before and after a run: anything that is not a dict is as it
    was, a dict is a dict that agrees with the old one outside the
    whitelist. *)
Definition same_record (old new : json) : Prop :=
  match old with
  | JObj v =>
      exists v', new = JObj v'
                 /\ forall key, ~ In key whitelist ->
                                dict_get key v' = dict_get key v
  | _ => new = old
  end.

(** The URLs the site enumerator requests for one entry of the site
    list. *)
Definition site_request (site : json) : list pystr :=
  match site with
  | JObj s =>
      let api_url := opt_default (dict_get (lit "api") s) (JStr []) in
      if truthy api_url then [py_str E api_url] else []
  | _ => []
  end.

(** A record the backfill counts, as a success or as a failure: a dict
    with a non-empty id. *)
Definition counted (video : json) : bool :=
  match video with
  | JObj v => truthy (opt_default (dict_get (lit "vod_id") v) JNull)
  | _ => false
  end.

(** An entry of the site list that the enumerator fetches and stores:
    a dict with a non-empty ['api'] whose request delivers a non-empty
    value, and whose file can be written.  [i] is its place in the list,
    from 1, which names an entry without a ['name']. *)
Definition site_saved (output_dir : pystr) (i : Z) (site : json) : bool :=
  match site with
  | JObj s =>
      let api_url := opt_default (dict_get (lit "api") s) (JStr []) in
      truthy api_url
      && truthy (FetchAllPages.decode_page (http E (py_str E api_url)))
      && match opt_default (dict_get (lit "name") s)
                 (JStr (lit "site_" ++ str_of_int i)) with
         | JStr name =>
             writable E
               (path_join output_dir
                  (ParseSites.sanitize_filename name ++ lit ".json"))
         | _ => false
         end
  | _ => false
  end.

(** How many entries of [sites], the first of which stands at place [i],
    are fetched and stored. *)
Fixpoint saved_count (output_dir : pystr) (i : Z) (sites : list json) : Z :=
  match sites with
  | [] => 0
  | site :: rest =>
      (if site_saved output_dir i site then 1 else 0)
      + saved_count output_dir (i + 1) rest
  end.

End More.
End MoreSpec.

(* ================================================================== *)
(** ** Concrete worlds                                                 *)
(* ================================================================== *)

Module Examples.
Import Py Env.

Definition api_demo : pystr := lit "http://h/api".

Definition video (id : Z) : json := JObj [(lit "id", JInt id)].

Definition page_of (videos : list json) : json :=
  JObj [(lit "list", JArr videos)].

(** A root config with one site, [name] at [api_demo]. *)
Definition config_for (name : pystr) : json :=
  JObj [(lit "sites",
         JArr [JObj [(lit "name", JStr name); (lit "api", JStr api_demo)]])].

(** A project rooted at [/r] whose root config is [config] and whose
    [sites] directory holds [content] as [site_file]. *)
Definition disk (config : json) (site_file : pystr) (content : json)
  : world :=
  {| fs := fun p =>
       if str_eqb p (lit "/r/sites/" ++ site_file)
       then Some (JsonFile content)
       else if str_eqb p (lit "/r/tvbox_config.json")
       then Some (JsonFile config)
       else None;
     log := [] |}.

(** An upstream described by a table from URL to outcome; any other URL
    cannot be reached. *)
Definition upstream (table : list (pystr * http_outcome)) : env :=
  {| PROJECT_ROOT := lit "/r";
     repr := fun _ => [];
     http := fun u =>
       match find (fun e => str_eqb (fst e) u) table with
       | Some e => snd e
       | None => ConnError
       end;
     writable := fun _ => true;
     opens := fun _ => true;
     makedirs_ok := fun _ => true |}.

(** The first page [{pagecount: n, list: [{id: 1}]}]. *)
Definition first_page (n : Z) : dict :=
  [(lit "pagecount", JInt n); (lit "list", JArr [video 1])].

(** Page 2 arrives with one record. *)
Definition E_two_pages : env :=
  upstream [(lit "http://h/api?pg=2", Response 200 (Some (page_of [video 2])))].

(** Page 2 answers 500, page 3 arrives with one record. *)
Definition E_page2_down : env :=
  upstream [(lit "http://h/api?pg=2", Response 500 None);
            (lit "http://h/api?pg=3", Response 200 (Some (page_of [video 3])))].

(** Page 2 answers 300 (Multiple Choices, which is no redirect that
    [requests] follows) with a page as its body; page 3 arrives. *)
Definition E_page2_300 : env :=
  upstream [(lit "http://h/api?pg=2", Response 300 (Some (page_of [video 2])));
            (lit "http://h/api?pg=3", Response 200 (Some (page_of [video 3])))].

(** The environment [E] with a file system on which every file can be
    opened for writing and no dump gets through. *)
Definition dump_fails (E : env) : env :=
  {| PROJECT_ROOT := PROJECT_ROOT E;
     repr := repr E;
     http := http E;
     writable := fun _ => false;
     opens := fun _ => true;
     makedirs_ok := makedirs_ok E |}.

(** A site named [a.json], stored by the enumerator as [a.json.json]. *)
Definition w_json_in_stem : world :=
  disk (config_for (lit "a.json")) (lit "a.json.json") (JObj (first_page 1)).


Definition no_files : world := {| fs := fun _ => None; log := [] |}.

(** The seed URL answers with [{sites: 5}]. *)
Definition E_sites_number : env :=
  upstream [(lit "http://h/cfg",
             Response 200 (Some (JObj [(lit "sites", JInt 5)])))].

(** A root config of three entries: one that is no dict, one with no API
    URL, one whose URL cannot be reached. *)
Definition w_three_sites : world :=
  {| fs := fun p =>
       if str_eqb p (lit "tvbox_config.json")
       then Some (JsonFile
                    (JObj [(lit "sites",
                            JArr [JInt 7;
                                  JObj [(lit "name", JStr (lit "b"))];
                                  JObj [(lit "name", JStr (lit "a"));
                                        (lit "api", JStr api_demo)]])]))
       else None;
     log := [] |}.


(** One record with a cast and no playback URL. *)
Definition bob : dict :=
  [(lit "vod_id", JInt 1); (lit "vod_actor", JStr (lit "Bob"))].

Definition w_bob : world :=
  disk (config_for (lit "a")) (lit "a.json")
    (JObj [(lit "list", JArr [JObj bob])]).

(** The detail of record 1 has a playback URL and an empty cast. *)
Definition detail_1 : dict :=
  [(lit "vod_play_url", JStr (lit "u")); (lit "vod_actor", JStr [])].

Definition E_blank_actor : env :=
  upstream [(lit "http://h/api?ac=detail&ids=1",
             Response 200 (Some (page_of [JObj detail_1])))].



(** A site list whose first entry is a number. *)
Definition w_number_first : world :=
  disk (JObj [(lit "sites",
               JArr [JInt 7;
                     JObj [(lit "name", JStr (lit "a"));
                           (lit "api", JStr api_demo)]])])
    (lit "a.json") (JObj (first_page 1)).

(** The only site is named [A/B]; the enumerator stores it as [A_B.json]. *)
Definition w_slash_name : world :=
  disk (config_for (lit "A/B")) (lit "A_B.json") (JObj (first_page 1)).


(** A list of three: a number, the record [bob], and a record with no
    id. *)
Definition w_bob_and_others : world :=
  disk (config_for (lit "a")) (lit "a.json")
    (JObj [(lit "list",
            JArr [JInt 7; JObj bob; JObj [(lit "vod_name", JNull)]])]).


(** The seed URL answers with a root config of one site. *)
Definition E_config : env :=
  upstream [(lit "http://h/cfg", Response 200 (Some (config_for (lit "a"))))].


(** The API URL of the demo site answers with a first page. *)
Definition E_site_up : env :=
  upstream [(api_demo, Response 200 (Some (JObj (first_page 2))))].

End Examples.

(* ================================================================== *)
(** ** Facts about the builtins                                        *)
(* ================================================================== *)

Module PyFacts.
Import Py.

Lemma str_eqb_eq (a b : pystr) : str_eqb a b = true <-> a = b.
Proof.
  unfold str_eqb. destruct (list_eq_dec N.eq_dec a b); split; congruence.
Qed.

Lemma str_eqb_refl (a : pystr) : str_eqb a a = true.
Proof. now apply str_eqb_eq. Qed.

Lemma str_eqb_neq (a b : pystr) : str_eqb a b = false <-> a <> b.
Proof.
  unfold str_eqb. destruct (list_eq_dec N.eq_dec a b); split; congruence.
Qed.

Lemma dict_get_set_same (k : pystr) (v : json) (d : dict) :
  dict_get k (dict_set k v d) = Some v.
Proof.
  induction d as [|[k' v'] d IH]; simpl.
  - now rewrite str_eqb_refl.
  - destruct (str_eqb k' k) eqn:Hk; simpl; rewrite Hk; auto.
Qed.

Lemma dict_get_set_other (k k' : pystr) (v : json) (d : dict) :
  k <> k' -> dict_get k' (dict_set k v d) = dict_get k' d.
Proof.
  intros Hne. induction d as [|[k0 v0] d IH]; simpl.
  - destruct (str_eqb k k') eqn:Hk; auto.
    apply str_eqb_eq in Hk. contradiction.
  - destruct (str_eqb k0 k) eqn:Hk; simpl.
    + apply str_eqb_eq in Hk. subst k0.
      destruct (str_eqb k k') eqn:Hk'; auto.
      apply str_eqb_eq in Hk'. contradiction.
    + now rewrite IH.
Qed.


End PyFacts.

(* ================================================================== *)
(** ** The page aggregator                                             *)
(* ================================================================== *)

Module FetchAllPagesFacts.
Import Py Env FetchAllPages PageSpec PyFacts.

Section Pages.
Variable E : env.

Lemma fetch_page_str (api : pystr) (page : Z) (w : world) :
  fetch_page E (JStr api) page w
  = (Ret (fetched E api page),
     {| fs := fs w; log := log w ++ [Get (url_of E api page)] |}).
Proof. reflexivity. Qed.

Lemma fetch_ok_page (api : pystr) (page : Z) :
  fetch_ok E api page = true -> page_ok (fetched E api page) = true.
Proof.
  unfold fetch_ok, fetched, decode_page.
  destruct (http E (url_of E api page)) as [|st [data|]]; try discriminate.
  destruct (raises_for_status st); simpl; [discriminate | auto].
Qed.

Lemma fetch_failed_none (api : pystr) (page : Z) :
  fetch_failed E api page = true -> fetched E api page = JNull.
Proof.
  unfold fetch_failed, fetched, decode_page.
  destruct (http E (url_of E api page)) as [|st [data|]]; auto;
    destruct (raises_for_status st); simpl; auto; discriminate.
Qed.

(** A page that arrived adds its records; a failed fetch adds nothing. *)
Lemma add_page_benign (acc : list json) (v : json) :
  page_ok v = true \/ v = JNull ->
  add_page (JArr acc) v = Ret (JArr (acc ++ records v)).
Proof.
  intros [Hok | ->]; [| simpl; now rewrite app_nil_r].
  destruct v as [| | | | | |d]; try discriminate.
  unfold add_page, records, page_ok in *. simpl py_get. unfold opt_default.
  destruct d as [|kv d]; [simpl; now rewrite app_nil_r|].
  cbn [truthy rbind].
  destruct (dict_get (lit "list") (kv :: d)) as [x|];
    [| simpl; now rewrite app_nil_r].
  destruct x; try discriminate.
  destruct l; simpl; [now rewrite app_nil_r | reflexivity].
Qed.

Lemma fetch_rest_run (api : pystr) (n : Z) (pages : list Z) :
  (forall p, In p pages ->
     fetch_ok E api p = true \/ fetch_failed E api p = true) ->
  forall (acc : list json) (w : world),
    fetch_rest E (JStr api) n pages (JArr acc) w
    = (Ret (JArr (acc ++ flat_map (fun p => records (fetched E api p)) pages)),
       {| fs := fs w; log := log w ++ page_events E api n pages |}).
Proof.
  induction pages as [|p pages IH]; intros Hall acc w.
  - simpl. rewrite !app_nil_r. now destruct w.
  - cbn [fetch_rest]. unfold bind at 1. rewrite fetch_page_str.
    unfold bind at 1, lift at 1.
    rewrite add_page_benign.
    2:{ destruct (Hall p (or_introl eq_refl)) as [H|H];
        [left; now apply fetch_ok_page | right; now apply fetch_failed_none]. }
    unfold bind at 1.
    assert (Hstep : forall w0 : world,
      (if p <? n then sleep else ret tt) w0
      = (Ret tt, {| fs := fs w0;
                    log := log w0 ++ (if p <? n then [Sleep] else []) |})).
    { intros w0. destruct (p <? n); cbn.
      - reflexivity.
      - rewrite app_nil_r. now destruct w0. }
    rewrite Hstep. rewrite IH by (intros q Hq; apply Hall; now right).
    cbn [fs log page_events flat_map]. rewrite <- !app_assoc. reflexivity.
Qed.

Lemma gets_page_events (api : pystr) (n : Z) (pages : list Z) :
  gets (page_events E api n pages) = map (url_of E api) pages.
Proof.
  induction pages as [|p pages IH]; [reflexivity|].
  cbn [page_events flat_map gets map].
  unfold gets in *. rewrite flat_map_app.
  unfold page_events in IH. rewrite IH.
  destruct (p <? n); reflexivity.
Qed.

Example pages_2_to_4 : pages_2_to 4 = [2; 3; 4].
Proof. reflexivity. Qed.

Lemma in_pages_2_to (n p : Z) : In p (pages_2_to n) <-> 2 <= p <= n.
Proof.
  unfold pages_2_to. rewrite in_map_iff. split.
  - intros [k [<- Hk]]. apply in_seq in Hk. lia.
  - intros Hp. exists (Z.to_nat p). split; [lia|]. apply in_seq. lia.
Qed.

(** The aggregation proper, when every fetch either delivers a page or
    fails. *)
Lemma merge_all_pages_run (d : dict) (api : pystr) (n : Z) (w : world) :
  dict_get (lit "pagecount") d = Some (JInt n) ->
  1 < n ->
  page_ok (JObj d) = true ->
  (forall p, 2 <= p <= n ->
     fetch_ok E api p = true \/ fetch_failed E api p = true) ->
  let all := records (JObj d)
             ++ flat_map (fun p => records (fetched E api p)) (pages_2_to n) in
  merge_all_pages E (JObj d) (JStr api) w
  = (Ret (JObj (dict_set (lit "total") (JInt (Z.of_nat (length all)))
                  (dict_set (lit "page") (JInt 1)
                     (dict_set (lit "list") (JArr all) d)))),
     {| fs := fs w; log := log w ++ page_events E api n (pages_2_to n) |}).
Proof.
  intros Hpc Hn Hok Hall all.
  unfold merge_all_pages. unfold bind at 1, lift at 1.
  cbn [py_get]. rewrite Hpc. cbn [opt_default].
  unfold bind at 1, lift at 1.
  assert (Hlist : opt_default (dict_get (lit "list") d) (JArr [])
                  = JArr (records (JObj d))).
  { unfold page_ok, records in *.
    destruct (dict_get (lit "list") d) as [x|]; [|reflexivity].
    destruct x; try discriminate. reflexivity. }
  rewrite Hlist.
  unfold bind at 1, lift at 1. cbn [py_len].
  unfold bind at 1, lift at 1. cbn [le_one].
  replace (n <=? 1) with false by (symmetry; apply Z.leb_gt; lia).
  unfold bind at 1, lift at 1. cbn [py_copy].
  unfold bind at 1, lift at 1. cbn [page_range].
  unfold bind at 1. cbn [int_of].
  fold (pages_2_to n).
  rewrite fetch_rest_run
    by (intros p Hp; apply Hall; now apply in_pages_2_to).
  fold all. unfold bind at 1, lift at 1. cbn [py_len]. reflexivity.
Qed.

Lemma fetch_all_pages_ready (w : world) (site_file : pystr) (d : dict)
    (api : pystr) :
  ready E w site_file d api ->
  fetch_all_pages E site_file w = merge_all_pages E (JObj d) (JStr api) w.
Proof.
  intros (Hfile & Hapi & Hne). unfold fetch_all_pages.
  rewrite Hfile, Hapi. destruct api; [contradiction | reflexivity].
Qed.

Lemma flat_map_skip {A B} (f : A -> list B) (keep : A -> bool) (l : list A) :
  (forall a, In a l -> keep a = false -> f a = []) ->
  flat_map f l = flat_map f (filter keep l).
Proof.
  induction l as [|a l IH]; intros H; [reflexivity|].
  cbn [flat_map filter]. destruct (keep a) eqn:Ha; cbn [flat_map].
  - f_equal. apply IH. intros b Hb. apply H. now right.
  - rewrite (H a (or_introl eq_refl) Ha). cbn [app].
    apply IH. intros b Hb. apply H. now right.
Qed.

(** Past the single-page test, [merge_all_pages] either raises or
    returns the first page with its three keys set. *)
Lemma merge_all_pages_shape (d : dict) (api_url : json) (n : Z) (w : world) :
  dict_get (lit "pagecount") d = Some (JInt n) ->
  1 < n ->
  forall (v : json) (w' : world),
    merge_all_pages E (JObj d) api_url w = (Ret v, w') ->
    exists all_videos total,
      v = JObj (dict_set (lit "total") (JInt total)
                  (dict_set (lit "page") (JInt 1)
                     (dict_set (lit "list") all_videos d))).
Proof.
  intros Hpc Hn v w'.
  unfold merge_all_pages. unfold bind at 1, lift at 1.
  cbn [py_get]. rewrite Hpc. cbn [opt_default].
  unfold bind at 1, lift at 1. unfold bind at 1, lift at 1.
  destruct (py_len _) as [len|e]; [|discriminate].
  unfold bind at 1, lift at 1. cbn [le_one].
  replace (n <=? 1) with false by (symmetry; apply Z.leb_gt; lia).
  unfold bind at 1, lift at 1.
  destruct (py_copy _) as [acc|e]; [|discriminate].
  unfold bind at 1, lift at 1. cbn [page_range].
  unfold bind at 1.
  destruct (fetch_rest _ _ _ _ _ _) as [[all_videos|e] w1]; [|discriminate].
  unfold bind at 1, lift at 1.
  destruct (py_len all_videos) as [total|e]; [|discriminate].
  unfold ret. intros [= <- <-]. now exists all_videos, total.
Qed.

(** C1: with [pagecount = n > 1] and every fetch of pages 2..n
    delivering a page, the output ['list'] is the first page's records
    followed by the records of pages 2, 3, ..., n in that order, ['total']
    is the length of that list and ['page'] is 1. *)
Theorem fetch_all_pages_concatenates (w : world) (site_file : pystr)
    (d : dict) (api : pystr) (n : Z) :
  ready E w site_file d api ->
  dict_get (lit "pagecount") d = Some (JInt n) ->
  1 < n ->
  page_ok (JObj d) = true ->
  (forall p, 2 <= p <= n -> fetch_ok E api p = true) ->
  exists (out : dict) (w' : world),
    fetch_all_pages E site_file w = (Ret (JObj out), w')
    /\ dict_get (lit "list") out
       = Some (JArr (records (JObj d)
                     ++ flat_map (fun p => records (fetched E api p))
                          (pages_2_to n)))
    /\ dict_get (lit "total") out
       = Some (JInt (Z.of_nat (length
                (records (JObj d)
                 ++ flat_map (fun p => records (fetched E api p))
                      (pages_2_to n)))))
    /\ dict_get (lit "page") out = Some (JInt 1).
Proof.
  intros Hready Hpc Hn Hok Hall.
  rewrite (fetch_all_pages_ready _ _ _ _ Hready).
  rewrite (merge_all_pages_run d api n w Hpc Hn Hok)
    by (intros p Hp; left; now apply Hall).
  eexists. eexists. split; [reflexivity|].
  repeat split.
  - rewrite !dict_get_set_other by discriminate.
    now rewrite dict_get_set_same.
  - now rewrite dict_get_set_same.
  - rewrite dict_get_set_other by discriminate.
    now rewrite dict_get_set_same.
Qed.

(** C2: with ['pagecount'] at most 1, or absent, the aggregator returns
    the first page as it is and leaves the world as it was: nothing is
    requested. *)
Theorem fetch_all_pages_single_page (w : world) (site_file : pystr)
    (d : dict) :
  fs w (path_join (path_join (PROJECT_ROOT E) (lit "sites")) site_file)
    = Some (JsonFile (JObj d)) ->
  truthy (get_site_api_url E (replace (lit ".json") [] site_file) w) = true ->
  le_one (pagecount_of d) = Ret true ->
  (exists len, py_len (opt_default (dict_get (lit "list") d) (JArr []))
               = Ret len) ->
  fetch_all_pages E site_file w = (Ret (JObj d), w).
Proof.
  intros Hfile Hapi Hle [len Hlen].
  unfold fetch_all_pages. rewrite Hfile, Hapi. cbn [negb].
  unfold merge_all_pages. unfold bind at 1, lift at 1. cbn [py_get].
  unfold bind at 1, lift at 1. unfold bind at 1, lift at 1.
  rewrite Hlen. unfold bind at 1, lift at 1.
  unfold pagecount_of in Hle. rewrite Hle. reflexivity.
Qed.

(** C3, amended: when the fetch of one page k fails (no response, a
    status from 400 to 599, or a body that is not JSON) and every other
    fetch delivers a page, the aggregator still returns a document, it has
    requested every page 2..n, and the output ['list'] is the first page's
    records followed by those of the pages other than k, ascending. *)
Theorem fetch_all_pages_skips_failed_page (w : world) (site_file : pystr)
    (d : dict) (api : pystr) (n k : Z) :
  ready E w site_file d api ->
  dict_get (lit "pagecount") d = Some (JInt n) ->
  page_ok (JObj d) = true ->
  1 < k <= n ->
  fetch_failed E api k = true ->
  (forall p, 2 <= p <= n -> p <> k -> fetch_ok E api p = true) ->
  exists (out : dict) (w' : world),
    fetch_all_pages E site_file w = (Ret (JObj out), w')
    /\ gets (log w') = gets (log w) ++ map (url_of E api) (pages_2_to n)
    /\ dict_get (lit "list") out
       = Some (JArr (records (JObj d)
                     ++ flat_map (fun p => records (fetched E api p))
                          (filter (fun p => negb (p =? k)) (pages_2_to n)))).
Proof.
  intros Hready Hpc Hok Hk Hfail Hall.
  rewrite (fetch_all_pages_ready _ _ _ _ Hready).
  assert (Hn : 1 < n) by lia.
  assert (Heach : forall p, 2 <= p <= n ->
            fetch_ok E api p = true \/ fetch_failed E api p = true).
  { intros p Hp. destruct (Z.eq_dec p k) as [->|Hne];
      [now right | left; now apply Hall]. }
  rewrite (merge_all_pages_run d api n w Hpc Hn Hok Heach).
  eexists. eexists. split; [reflexivity|]. split.
  - cbn [log]. unfold gets at 1. rewrite flat_map_app.
    fold (gets (log w)). fold (gets (page_events E api n (pages_2_to n))).
    now rewrite gets_page_events.
  - rewrite !dict_get_set_other by discriminate.
    rewrite dict_get_set_same. do 3 f_equal.
    apply flat_map_skip. intros p _ Hp.
    apply negb_false_iff, Z.eqb_eq in Hp. subst p.
    now rewrite fetch_failed_none.
Qed.

(** C4: with [pagecount > 1], a document the aggregator returns agrees
    with the first page on every key other than ['list'], ['page'] and
    ['total'], and it does return one whenever every fetch of pages 2..n
    either delivers a page or fails. *)
Theorem fetch_all_pages_frame (w : world) (site_file : pystr)
    (d : dict) (api : pystr) (n : Z) :
  ready E w site_file d api ->
  dict_get (lit "pagecount") d = Some (JInt n) ->
  1 < n ->
  (forall (v : json) (w' : world),
     fetch_all_pages E site_file w = (Ret v, w') ->
     exists out : dict,
       v = JObj out
       /\ forall key : pystr,
            key <> lit "list" -> key <> lit "page" -> key <> lit "total" ->
            dict_get key out = dict_get key d)
  /\ (page_ok (JObj d) = true ->
      (forall p, 2 <= p <= n ->
         fetch_ok E api p = true \/ fetch_failed E api p = true) ->
      exists (out : dict) (w' : world),
        fetch_all_pages E site_file w = (Ret (JObj out), w')).
Proof.
  intros Hready Hpc Hn.
  rewrite (fetch_all_pages_ready _ _ _ _ Hready). split.
  - intros v w' Hrun.
    destruct (merge_all_pages_shape d (JStr api) n w Hpc Hn v w' Hrun)
      as (all_videos & total & ->).
    eexists. split; [reflexivity|].
    intros key H1 H2 H3.
    now rewrite !dict_get_set_other by congruence.
  - intros Hok Hall.
    rewrite (merge_all_pages_run d api n w Hpc Hn Hok Hall).
    eexists. eexists. reflexivity.
Qed.

End Pages.
End FetchAllPagesFacts.

Module FetchAllPagesWitnesses.
Import Py Env FetchAllPages PageSpec FetchAllPagesFacts Examples.

Lemma fetch_all_pages_concatenates_witness :
  exists (out : dict) (w' : world),
    fetch_all_pages E_two_pages (lit "a.json")
      (disk (config_for (lit "a")) (lit "a.json") (JObj (first_page 2)))
    = (Ret (JObj out), w')
    /\ dict_get (lit "list") out = Some (JArr [video 1; video 2])
    /\ dict_get (lit "total") out = Some (JInt 2)
    /\ dict_get (lit "page") out = Some (JInt 1).
Proof.
  apply (fetch_all_pages_concatenates E_two_pages
           (disk (config_for (lit "a")) (lit "a.json") (JObj (first_page 2)))
           (lit "a.json") (first_page 2) api_demo 2).
  - split; [reflexivity | split; [reflexivity | discriminate]].
  - reflexivity.
  - lia.
  - reflexivity.
  - intros p Hp. assert (p = 2) as -> by lia. reflexivity.
Defined.

Lemma fetch_all_pages_single_page_witness :
  fetch_all_pages E_two_pages (lit "a.json")
    (disk (config_for (lit "a")) (lit "a.json") (JObj (first_page 1)))
  = (Ret (JObj (first_page 1)),
     disk (config_for (lit "a")) (lit "a.json") (JObj (first_page 1))).
Proof.
  apply (fetch_all_pages_single_page E_two_pages).
  - reflexivity.
  - reflexivity.
  - reflexivity.
  - exists 1. reflexivity.
Defined.

Lemma fetch_all_pages_skips_failed_page_witness :
  exists (out : dict) (w' : world),
    fetch_all_pages E_page2_down (lit "a.json")
      (disk (config_for (lit "a")) (lit "a.json") (JObj (first_page 3)))
    = (Ret (JObj out), w')
    /\ gets (log w')
       = [lit "http://h/api?pg=2"; lit "http://h/api?pg=3"]
    /\ dict_get (lit "list") out = Some (JArr [video 1; video 3]).
Proof.
  apply (fetch_all_pages_skips_failed_page E_page2_down
           (disk (config_for (lit "a")) (lit "a.json") (JObj (first_page 3)))
           (lit "a.json") (first_page 3) api_demo 3 2).
  - split; [reflexivity | split; [reflexivity | discriminate]].
  - reflexivity.
  - reflexivity.
  - lia.
  - reflexivity.
  - intros p Hp Hne. assert (p = 3) as -> by lia. reflexivity.
Defined.

(** C3 as stated fails: page 2 answers with status 300, which is not a
    2xx status, and a page as its body; [raise_for_status] raises for 4xx
    and 5xx only, so the page is merged like any other. *)
Lemma fetch_all_pages_skips_failed_page_counterexample :
  http E_page2_300 (url_of E_page2_300 api_demo 2)
  = Response 300 (Some (page_of [video 2]))
  /\ fetch_failed_as_claimed E_page2_300 api_demo 2 = true
  /\ fetch_ok E_page2_300 api_demo 3 = true
  /\ exists (out : dict) (w' : world),
       fetch_all_pages E_page2_300 (lit "a.json")
         (disk (config_for (lit "a")) (lit "a.json") (JObj (first_page 3)))
       = (Ret (JObj out), w')
       /\ dict_get (lit "list") out
          = Some (JArr [video 1; video 2; video 3]).
Proof.
  repeat split. eexists. eexists. split; reflexivity.
Qed.

Lemma fetch_all_pages_frame_witness :
  exists (out : dict) (w' : world),
    fetch_all_pages E_page2_down (lit "a.json")
      (disk (config_for (lit "a")) (lit "a.json") (JObj (first_page 3)))
    = (Ret (JObj out), w')
    /\ dict_get (lit "pagecount") out = Some (JInt 3).
Proof.
  destruct (fetch_all_pages_frame E_page2_down
              (disk (config_for (lit "a")) (lit "a.json") (JObj (first_page 3)))
              (lit "a.json") (first_page 3) api_demo 3)
    as [Hframe Hreturns].
  - split; [reflexivity | split; [reflexivity | discriminate]].
  - reflexivity.
  - lia.
  - destruct Hreturns as (out & w' & Hrun).
    + reflexivity.
    + intros p Hp.
      assert (p = 2 \/ p = 3) as [-> | ->] by lia;
        [right | left]; reflexivity.
    + exists out, w'. split; [exact Hrun|].
      destruct (Hframe _ _ Hrun) as (out' & Hout & Hkeys).
      injection Hout as ->.
      rewrite Hkeys by discriminate. reflexivity.
Defined.

End FetchAllPagesWitnesses.

(* ================================================================== *)
(** ** The endpoint lookup                                             *)
(* ================================================================== *)

Module LookupFacts.
Import Py Env PyFacts NameSpec Examples.

(** On a list of dicts the loop returns the ['api'] of the first entry
    whose ['name'] is [site_name], and [None] when there is none. *)
Lemma find_site_first (site_name : pystr) (sites : list dict) :
  FetchAllPages.find_site site_name (map JObj sites)
  = Ret match find (fun s => eq_str (opt_default (dict_get (lit "name") s) JNull)
                               site_name) sites with
        | Some s => opt_default (dict_get (lit "api") s) (JStr [])
        | None => JNull
        end.
Proof.
  induction sites as [|s sites IH]; [reflexivity|].
  cbn [map FetchAllPages.find_site find py_get rbind].
  destruct (eq_str _ site_name); [reflexivity | exact IH].
Qed.

Lemma find_site_same (site_name : pystr) (sites : list json) :
  FetchPlayUrls.find_site site_name sites
  = FetchAllPages.find_site site_name sites.
Proof.
  induction sites as [|s sites IH]; [reflexivity|].
  cbn [FetchPlayUrls.find_site FetchAllPages.find_site].
  now rewrite IH.
Qed.

Lemma starts_with_app (p s : pystr) : starts_with p (p ++ s) = true.
Proof.
  induction p as [|c p IH]; [reflexivity|].
  cbn [app starts_with]. now rewrite N.eqb_refl, IH.
Qed.

(** Where [.json] occurs only as the extension, [replace] removes exactly
    the extension. *)
Lemma replace_strips_extension (stem : pystr) :
  is_substring (lit ".json") stem = false ->
  replace (lit ".json") [] (stem ++ lit ".json") = stem.
Proof.
  change (replace (lit ".json") [] (stem ++ lit ".json"))
    with (replace_from (lit ".json") [] (stem ++ lit ".json") 0).
  induction stem as [|c stem IH]; intros Hsub; [reflexivity|].
  cbn [is_substring] in Hsub. apply orb_false_iff in Hsub.
  destruct Hsub as [Hhere Hrest].
  cbn [app replace_from].
  assert (Hno : starts_with (lit ".json") (c :: stem ++ lit ".json") = false).
  { clear IH Hrest.
    destruct stem as [|c2 [|c3 [|c4 [|c5 stem]]]];
      cbn in Hhere |- *;
      repeat match goal with
             | |- context [N.eqb ?a ?b] =>
                 destruct (N.eqb_spec a b); subst; cbn in *; try discriminate
             end; auto. }
  change (c :: stem ++ lit ".json") with ((c :: stem) ++ lit ".json") in Hno.
  cbn [app] in Hno. rewrite Hno. f_equal. now apply IH.
Qed.

Lemma base_name_extension (stem : pystr) :
  base_name (stem ++ lit ".json") = stem.
Proof.
  unfold base_name. rewrite rev_app_distr, starts_with_app.
  rewrite length_app. cbn [length lit map list_ascii_of_string].
  replace (length stem + 5 - 5)%nat with (length stem + 0)%nat by lia.
  rewrite firstn_app_2. cbn [firstn]. apply app_nil_r.
Qed.

(** X5: where [.json] occurs only as the extension and the site list holds
    dicts, both scripts look the site up under the file's base name: they
    return the ['api'] of the first entry of that name, and [None] when
    there is none. *)
Lemma get_site_api_url_resolves (E : env) (stem : pystr) (w : world)
    (d : dict) (sites : list dict) :
  is_substring (lit ".json") stem = false ->
  fs w (path_join (PROJECT_ROOT E) (lit "tvbox_config.json"))
  = Some (JsonFile (JObj d)) ->
  dict_get (lit "sites") d = Some (JArr (map JObj sites)) ->
  let found :=
    match find (fun s => eq_str (opt_default (dict_get (lit "name") s) JNull)
                           (base_name (stem ++ lit ".json"))) sites with
    | Some s => opt_default (dict_get (lit "api") s) (JStr [])
    | None => JNull
    end in
  FetchAllPages.get_site_api_url E
    (replace (lit ".json") [] (stem ++ lit ".json")) w = found
  /\ FetchPlayUrls.get_site_api_url E (stem ++ lit ".json") w = found.
Proof.
  intros Hstem Hconfig Hsites found. subst found.
  rewrite base_name_extension.
  unfold FetchAllPages.get_site_api_url, FetchPlayUrls.get_site_api_url.
  rewrite Hconfig. cbn [py_get]. rewrite Hsites.
  cbn [opt_default rbind py_iter].
  rewrite (replace_strips_extension stem Hstem).
  split.
  - now rewrite find_site_first.
  - now rewrite (eq_trans (find_site_same _ _) (find_site_first _ _)).
Qed.

(** C8: a site named [a.json] is stored as [a.json.json]; the lookup
    removes both occurrences of [.json], asks the config for [a], and
    finds no URL although the config has the entry for the file's base
    name [a.json]. *)
Theorem get_site_api_url_json_in_stem :
  base_name (lit "a.json.json") = lit "a.json"
  /\ FetchAllPages.find_site (base_name (lit "a.json.json"))
       [JObj [(lit "name", JStr (lit "a.json")); (lit "api", JStr api_demo)]]
     = Ret (JStr api_demo)
  /\ replace (lit ".json") [] (lit "a.json.json") = lit "a"
  /\ FetchAllPages.fetch_all_pages E_two_pages (lit "a.json.json") w_json_in_stem
     = (Ret JNull, w_json_in_stem)
  /\ FetchPlayUrls.get_site_api_url E_two_pages (lit "a.json.json") w_json_in_stem
     = JNull.
Proof. repeat split. Qed.

End LookupFacts.

(* ================================================================== *)
(** ** File-name sanitization                                          *)
(* ================================================================== *)

Module SanitizeFacts.
Import Py ParseSites NameSpec.

Section Strip.
Variable p : pychar -> bool.

Lemma lstrip_starts_clean (s : pystr) : starts_clean p (lstrip p s) = true.
Proof.
  induction s as [|c s IH]; [reflexivity|].
  cbn [lstrip]. destruct (p c) eqn:Hc; [exact IH|].
  cbn. now rewrite Hc.
Qed.

Lemma lstrip_suffix (s : pystr) : exists pre, s = pre ++ lstrip p s.
Proof.
  induction s as [|c s [pre IH]]; [now exists []|].
  cbn [lstrip]. destruct (p c).
  - exists (c :: pre). cbn. now f_equal.
  - now exists [].
Qed.

Lemma rstrip_prefix (s : pystr) : exists suf, s = rstrip p s ++ suf.
Proof.
  unfold rstrip. destruct (lstrip_suffix (rev s)) as [pre H].
  exists (rev pre). rewrite <- rev_app_distr, <- H. now rewrite rev_involutive.
Qed.

Lemma rstrip_ends_clean (s : pystr) : ends_clean p (rstrip p s) = true.
Proof.
  unfold ends_clean, rstrip. rewrite rev_involutive.
  apply lstrip_starts_clean.
Qed.

Lemma starts_clean_prefix (a b : pystr) :
  starts_clean p (a ++ b) = true -> starts_clean p a = true.
Proof. destruct a; auto. Qed.

Lemma strip_by_starts_clean (s : pystr) :
  starts_clean p (strip_by p s) = true.
Proof.
  unfold strip_by. destruct (rstrip_prefix (lstrip p s)) as [suf H].
  apply starts_clean_prefix with (b := suf). rewrite <- H.
  apply lstrip_starts_clean.
Qed.

Lemma strip_by_ends_clean (s : pystr) : ends_clean p (strip_by p s) = true.
Proof. apply rstrip_ends_clean. Qed.

Lemma lstrip_clean (s : pystr) : starts_clean p s = true -> lstrip p s = s.
Proof.
  destruct s as [|c s]; [reflexivity|]. cbn.
  now destruct (p c).
Qed.

Lemma strip_by_clean (s : pystr) :
  starts_clean p s = true -> ends_clean p s = true -> strip_by p s = s.
Proof.
  intros Hs He. unfold strip_by, rstrip. rewrite (lstrip_clean s Hs).
  rewrite lstrip_clean by exact He. apply rev_involutive.
Qed.

Lemma lstrip_all (s t : pystr) :
  forallb p s = true -> lstrip p (s ++ t) = lstrip p t.
Proof.
  induction s as [|c s IH]; [reflexivity|].
  cbn. intros H. apply andb_true_iff in H. destruct H as [Hc Hs].
  rewrite Hc. now apply IH.
Qed.

Lemma rstrip_all (s t : pystr) :
  forallb p t = true -> rstrip p (s ++ t) = rstrip p s.
Proof.
  intros H. unfold rstrip. rewrite rev_app_distr. f_equal.
  apply lstrip_all. apply forallb_forall. intros c Hc.
  apply in_rev in Hc. revert c Hc. now apply forallb_forall.
Qed.

(** The end of a string is the end of its last part. *)
Lemma ends_clean_suffix (a b : pystr) :
  b <> [] -> ends_clean p (a ++ b) = ends_clean p b.
Proof.
  intros Hb. unfold ends_clean. rewrite rev_app_distr.
  destruct (rev b) as [|c r] eqn:Hr; [|reflexivity].
  apply (f_equal (@rev pychar)) in Hr. rewrite rev_involutive in Hr.
  contradiction.
Qed.

Lemma rstrip_clean (s : pystr) : ends_clean p s = true -> rstrip p s = s.
Proof.
  intros H. unfold rstrip. rewrite lstrip_clean by exact H.
  apply rev_involutive.
Qed.

(** Stripping commutes with a map that leaves the stripped class as it
    is. *)
Lemma lstrip_map (f : pychar -> pychar) (s : pystr) :
  (forall c, p (f c) = p c) ->
  lstrip p (map f s) = map f (lstrip p s).
Proof.
  intros Hf. induction s as [|c s IH]; [reflexivity|].
  cbn [map lstrip]. rewrite Hf. now destruct (p c).
Qed.

Lemma strip_by_map (f : pychar -> pychar) (s : pystr) :
  (forall c, p (f c) = p c) ->
  strip_by p (map f s) = map f (strip_by p s).
Proof.
  intros Hf. unfold strip_by, rstrip.
  rewrite (lstrip_map f s Hf), <- map_rev, (lstrip_map f _ Hf).
  now rewrite map_rev.
Qed.

Lemma starts_clean_map (f : pychar -> pychar) (s : pystr) :
  (forall c, p (f c) = p c) ->
  starts_clean p (map f s) = starts_clean p s.
Proof. intros Hf. destruct s as [|c s]; [reflexivity|]. cbn. now rewrite Hf. Qed.

Lemma ends_clean_map (f : pychar -> pychar) (s : pystr) :
  (forall c, p (f c) = p c) ->
  ends_clean p (map f s) = ends_clean p s.
Proof.
  intros Hf. unfold ends_clean. rewrite <- map_rev.
  now apply starts_clean_map.
Qed.

Lemma lstrip_in (c : pychar) (s : pystr) : In c (lstrip p s) -> In c s.
Proof.
  destruct (lstrip_suffix s) as [pre H]. intros Hin.
  rewrite H. apply in_or_app. now right.
Qed.

Lemma strip_by_in (c : pychar) (s : pystr) : In c (strip_by p s) -> In c s.
Proof.
  unfold strip_by. intros Hin. apply lstrip_in.
  destruct (rstrip_prefix (lstrip p s)) as [suf H].
  rewrite H. apply in_or_app. now left.
Qed.

End Strip.

Lemma clean_without (p : pychar -> bool) (s : pystr) :
  (forall c, In c s -> p c = false) ->
  starts_clean p s = true /\ ends_clean p s = true.
Proof.
  intros H. split.
  - destruct s as [|c s]; [reflexivity|]. cbn.
    now rewrite (H c (or_introl eq_refl)).
  - unfold ends_clean. destruct (rev s) as [|c r] eqn:Hr; [reflexivity|].
    cbn. rewrite H; [reflexivity|].
    apply in_rev. rewrite Hr. now left.
Qed.

(** Replacing one character by the underscore is a map. *)
Lemma replace_char (char : pychar) (s : pystr) :
  replace [char] (lit "_") s
  = map (fun c => if N.eqb char c then 95%N else c) s.
Proof.
  change (replace [char] (lit "_") s) with (replace_from [char] [95%N] s 0).
  induction s as [|c s IH]; [reflexivity|].
  cbn [replace_from starts_with length Nat.sub map].
  rewrite andb_true_r. destruct (N.eqb char c); cbn [app]; now rewrite IH.
Qed.

Lemma replaced_map (name : pystr) :
  fold_left (fun name char => replace [char] (lit "_") name)
    invalid_chars name
  = map subst_char name.
Proof.
  unfold invalid_chars. cbn [fold_left].
  rewrite !replace_char, !map_map. apply map_ext. intros c.
  unfold subst_char, is_invalid, invalid_chars. cbn [existsb].
  repeat match goal with
         | |- context [N.eqb ?a c] =>
             destruct (N.eqb_spec a c); [subst c; reflexivity|]
         end.
  repeat match goal with
         | |- context [N.eqb c ?a] =>
             destruct (N.eqb_spec c a); [congruence|]
         end.
  reflexivity.
Qed.

Lemma sanitize_filename_eq (name : pystr) :
  sanitize_filename name
  = match strip_by is_dot (strip_by isspace (map subst_char name)) with
    | [] => lit "unknown"
    | c :: s => c :: s
    end.
Proof.
  unfold sanitize_filename. rewrite replaced_map.
  change (N.eqb 46) with is_dot.
  now destruct (strip_by is_dot (strip_by isspace (map subst_char name))).
Qed.

Lemma subst_char_valid (c : pychar) : is_invalid (subst_char c) = false.
Proof.
  unfold subst_char. destruct (is_invalid c) eqn:H; [reflexivity | exact H].
Qed.

Lemma is_invalid_in (c : pychar) : In c invalid_chars -> is_invalid c = true.
Proof.
  intros H. unfold is_invalid. apply existsb_exists. exists c.
  split; [exact H | apply N.eqb_refl].
Qed.

Lemma space_valid (c : pychar) : isspace c = true -> is_invalid c = false.
Proof.
  intros Hs. destruct (is_invalid c) eqn:H; [|reflexivity].
  apply existsb_exists in H. destruct H as (x & Hx & Heq).
  apply N.eqb_eq in Heq. subst x.
  repeat (destruct Hx as [<- | Hx]; [discriminate Hs|]). destruct Hx.
Qed.

Lemma subst_char_space (c : pychar) : isspace c = true -> subst_char c = c.
Proof. intros H. unfold subst_char. now rewrite (space_valid c H). Qed.

Lemma subst_char_dot (c : pychar) : is_dot c = true -> subst_char c = c.
Proof.
  intros H. unfold is_dot in H. apply N.eqb_eq in H. subst c. reflexivity.
Qed.

Lemma subst_char_not_dot (c : pychar) : c <> 46%N -> subst_char c <> 46%N.
Proof.
  intros H. unfold subst_char. destruct (is_invalid c); [discriminate | exact H].
Qed.

(** The replacement turns no character into whitespace or a dot, nor
    any of these into something else. *)
Lemma subst_char_isspace (c : pychar) : isspace (subst_char c) = isspace c.
Proof.
  unfold subst_char. destruct (is_invalid c) eqn:H; [|reflexivity].
  destruct (isspace c) eqn:Hs; [|reflexivity].
  now rewrite (space_valid c Hs) in H.
Qed.

Lemma subst_char_is_dot (c : pychar) : is_dot (subst_char c) = is_dot c.
Proof.
  destruct (is_dot c) eqn:Hd; [now rewrite (subst_char_dot c Hd)|].
  unfold is_dot in *. apply N.eqb_neq. apply N.eqb_neq in Hd.
  intros H. symmetry in H. revert H. apply subst_char_not_dot.
  intros ->. now apply Hd.
Qed.

(** What is stripped of dots has no whitespace at the front when the
    text between the whitespace does not begin with a dot, and none at the
    end when it does not end with one. *)
Lemma strip_dots_front (s : pystr) :
  starts_clean is_dot (strip_by isspace s) = true ->
  starts_clean isspace (strip_by is_dot (strip_by isspace s)) = true.
Proof.
  intros H. unfold strip_by at 1. rewrite (lstrip_clean is_dot _ H).
  destruct (rstrip_prefix is_dot (strip_by isspace s)) as [suf Hsuf].
  apply starts_clean_prefix with (b := suf). rewrite <- Hsuf.
  apply strip_by_starts_clean.
Qed.

Lemma strip_dots_back (s : pystr) :
  ends_clean is_dot (strip_by isspace s) = true ->
  ends_clean isspace (strip_by is_dot (strip_by isspace s)) = true.
Proof.
  intros H. unfold strip_by at 1.
  destruct (lstrip_suffix is_dot (strip_by isspace s)) as [pre Hpre].
  destruct (lstrip is_dot (strip_by isspace s)) as [|c t] eqn:Ht;
    [reflexivity|].
  assert (Hne : c :: t <> []) by discriminate.
  rewrite Hpre in H. rewrite (ends_clean_suffix is_dot pre _ Hne) in H.
  rewrite (rstrip_clean is_dot _ H).
  rewrite <- (ends_clean_suffix isspace pre _ Hne), <- Hpre.
  apply strip_by_ends_clean.
Qed.

Lemma map_id_on {A} (f : A -> A) (l : list A) :
  (forall a, In a l -> f a = a) -> map f l = l.
Proof.
  induction l as [|a l IH]; intros H; [reflexivity|].
  cbn. rewrite (H a (or_introl eq_refl)). f_equal.
  apply IH. intros b Hb. apply H. now right.
Qed.

Lemma map_const_on {A B} (f : A -> B) (b : B) (l : list A) :
  (forall a, In a l -> f a = b) -> map f l = repeat b (length l).
Proof.
  induction l as [|a l IH]; intros H; [reflexivity|].
  cbn. rewrite (H a (or_introl eq_refl)). f_equal.
  apply IH. intros x Hx. apply H. now right.
Qed.

(** C5, amended: the sanitized name is never empty, holds none of the
    nine characters, and neither begins nor ends with a dot.  It begins
    with no whitespace unless the name, stripped of whitespace, begins
    with a dot, and ends with none unless the stripped name ends with a
    dot; so a name with no dot in it comes out with no whitespace at
    either end.  The
    placeholder is returned when nothing is left after the replacement and
    the stripping, as for dots surrounded by whitespace (the empty name
    included), whereas a non-empty name made of the nine characters only
    comes out as that many underscores. *)
Theorem sanitize_filename_safe (name : pystr) :
  sanitize_filename name <> []
  /\ (forall c, In c invalid_chars -> ~ In c (sanitize_filename name))
  /\ starts_clean is_dot (sanitize_filename name) = true
  /\ ends_clean is_dot (sanitize_filename name) = true
  /\ (starts_clean is_dot (strip_by isspace name) = true ->
      starts_clean isspace (sanitize_filename name) = true)
  /\ (ends_clean is_dot (strip_by isspace name) = true ->
      ends_clean isspace (sanitize_filename name) = true)
  /\ (~ In 46%N name ->
      starts_clean isspace (sanitize_filename name) = true
      /\ ends_clean isspace (sanitize_filename name) = true)
  /\ (forall ws1 dots ws2,
        name = ws1 ++ dots ++ ws2 ->
        forallb isspace ws1 = true ->
        forallb is_dot dots = true ->
        forallb isspace ws2 = true ->
        sanitize_filename name = lit "unknown")
  /\ (name <> [] ->
      forallb is_invalid name = true ->
      sanitize_filename name = repeat 95%N (length name)).
Proof.
  rewrite sanitize_filename_eq.
  set (spaced := strip_by isspace (map subst_char name)).
  assert (Hdots := strip_by_starts_clean is_dot spaced).
  assert (Hdote := strip_by_ends_clean is_dot spaced).
  assert (Hin : forall c, In c (strip_by is_dot spaced) ->
                          exists x, In x name /\ c = subst_char x).
  { intros c Hc. apply strip_by_in in Hc. apply strip_by_in in Hc.
    apply in_map_iff in Hc. destruct Hc as (x & <- & Hx). now exists x. }
  repeat split.
  - destruct (strip_by is_dot spaced); discriminate.
  - intros c Hc Hin'.
    destruct (strip_by is_dot spaced) as [|c0 s0] eqn:Hs.
    + revert c Hc Hin'. unfold invalid_chars.
      intros c Hc Hin'.
      repeat (destruct Hc as [<- | Hc];
              [cbn in Hin'; repeat (destruct Hin' as [Hin' | Hin'];
                                    [discriminate Hin'|]); exact Hin'|]).
      exact Hc.
    + destruct (Hin c Hin') as (x & _ & ->).
      apply is_invalid_in in Hc. now rewrite subst_char_valid in Hc.
  - destruct (strip_by is_dot spaced); [reflexivity | exact Hdots].
  - destruct (strip_by is_dot spaced); [reflexivity | exact Hdote].
  - intros Hfront.
    assert (Hclean : starts_clean is_dot spaced = true).
    { subst spaced. rewrite (strip_by_map isspace subst_char name)
        by exact subst_char_isspace.
      now rewrite (starts_clean_map is_dot subst_char) by exact subst_char_is_dot. }
    pose proof (strip_dots_front _ Hclean) as Hres. fold spaced in Hres.
    destruct (strip_by is_dot spaced); [reflexivity | exact Hres].
  - intros Hback.
    assert (Hclean : ends_clean is_dot spaced = true).
    { subst spaced. rewrite (strip_by_map isspace subst_char name)
        by exact subst_char_isspace.
      now rewrite (ends_clean_map is_dot subst_char) by exact subst_char_is_dot. }
    pose proof (strip_dots_back _ Hclean) as Hres. fold spaced in Hres.
    destruct (strip_by is_dot spaced); [reflexivity | exact Hres].
  - assert (Hnodot : forall c, In c spaced -> is_dot c = false).
    { intros c Hc. apply strip_by_in in Hc. apply in_map_iff in Hc.
      destruct Hc as (x & <- & Hx). unfold is_dot. apply N.eqb_neq.
      intros Heq. symmetry in Heq. revert Heq. apply subst_char_not_dot.
      intros ->. contradiction. }
    destruct (clean_without is_dot spaced Hnodot) as [Hs He].
    rewrite (strip_by_clean is_dot spaced Hs He).
    destruct spaced eqn:Hsp; [reflexivity|].
    rewrite <- Hsp. apply strip_by_starts_clean.
  - assert (Hnodot : forall c, In c spaced -> is_dot c = false).
    { intros c Hc. apply strip_by_in in Hc. apply in_map_iff in Hc.
      destruct Hc as (x & <- & Hx). unfold is_dot. apply N.eqb_neq.
      intros Heq. symmetry in Heq. revert Heq. apply subst_char_not_dot.
      intros ->. contradiction. }
    destruct (clean_without is_dot spaced Hnodot) as [Hs He].
    rewrite (strip_by_clean is_dot spaced Hs He).
    destruct spaced eqn:Hsp; [reflexivity|].
    rewrite <- Hsp. apply strip_by_ends_clean.
  - intros ws1 dots ws2 -> H1 Hd H2.
    assert (Hmap : map subst_char (ws1 ++ dots ++ ws2) = ws1 ++ dots ++ ws2).
    { apply map_id_on. intros a Ha.
      apply in_app_or in Ha. destruct Ha as [Ha | Ha];
        [| apply in_app_or in Ha; destruct Ha as [Ha | Ha]].
      - apply subst_char_space. revert a Ha. now apply forallb_forall.
      - apply subst_char_dot. revert a Ha. now apply forallb_forall.
      - apply subst_char_space. revert a Ha. now apply forallb_forall. }
    subst spaced. rewrite Hmap.
    assert (Hstrip : strip_by is_dot (strip_by isspace (ws1 ++ dots ++ ws2)) = []).
    { unfold strip_by at 2. rewrite (lstrip_all isspace ws1 _ H1).
      destruct dots as [|dot dots].
      - cbn [app]. rewrite <- (app_nil_r ws2) at 1.
        rewrite (lstrip_all isspace ws2 [] H2). reflexivity.
      - cbn [forallb] in Hd. apply andb_true_iff in Hd.
        destruct Hd as [Hdot Hd].
        assert (Hns : isspace dot = false).
        { unfold is_dot in Hdot. apply N.eqb_eq in Hdot. now subst dot. }
        cbn [app lstrip]. rewrite Hns.
        change (dot :: dots ++ ws2) with ((dot :: dots) ++ ws2).
        rewrite (rstrip_all isspace _ ws2 H2).
        assert (Hall : forallb is_dot (dot :: dots) = true)
          by (cbn [forallb]; now rewrite Hdot, Hd).
        destruct (rstrip_prefix isspace (dot :: dots)) as [suf Hsuf].
        set (r := rstrip isspace (dot :: dots)) in *.
        assert (Hr : forallb is_dot r = true).
        { apply forallb_forall. intros c Hc.
          assert (Hc' : In c (dot :: dots))
            by (rewrite Hsuf; apply in_or_app; now left).
          clear Hc. revert c Hc'. now apply forallb_forall. }
        unfold strip_by. rewrite <- (app_nil_r r) at 1.
        rewrite (lstrip_all is_dot r [] Hr). reflexivity. }
    now rewrite Hstrip.
  - intros Hne Hall.
    assert (Hmap : map subst_char name = repeat 95%N (length name)).
    { apply map_const_on. intros a Ha. unfold subst_char.
      assert (Hinv : is_invalid a = true)
        by (revert a Ha; now apply forallb_forall).
      now rewrite Hinv. }
    subst spaced. rewrite Hmap.
    assert (Hclean : forall q : pychar -> bool, q 95%N = false ->
              strip_by q (repeat 95%N (length name)) = repeat 95%N (length name)).
    { intros q Hq.
      destruct (clean_without q (repeat 95%N (length name))) as [Hs He].
      - intros c Hc. apply repeat_spec in Hc. now subst c.
      - now apply strip_by_clean. }
    rewrite !Hclean by reflexivity.
    destruct name; [contradiction | reflexivity].
Qed.

(** C5 as stated fails twice: a name made of an invalid character is
    not given the placeholder, and whitespace behind a leading dot stays
    at the front of the result. *)
Lemma sanitize_filename_counterexample :
  sanitize_filename (lit "/") = lit "_"
  /\ sanitize_filename (lit "/") <> lit "unknown"
  /\ sanitize_filename (lit ". x") = lit " x"
  /\ starts_clean isspace (sanitize_filename (lit ". x")) = false.
Proof. repeat split. discriminate. Qed.

Lemma sanitize_filename_safe_witness :
  sanitize_filename (lit " .. ") = lit "unknown"
  /\ sanitize_filename (lit "/:") = lit "__"
  /\ starts_clean isspace (sanitize_filename (lit " A/B:C ")) = true
  /\ starts_clean isspace (sanitize_filename (lit " a.b ")) = true
  /\ ends_clean isspace (sanitize_filename (lit " a.b ")) = true.
Proof.
  destruct (sanitize_filename_safe (lit " .. "))
    as (_ & _ & _ & _ & _ & _ & _ & Hplace & _).
  destruct (sanitize_filename_safe (lit "/:"))
    as (_ & _ & _ & _ & _ & _ & _ & _ & Hunder).
  destruct (sanitize_filename_safe (lit " A/B:C "))
    as (_ & _ & _ & _ & _ & _ & Hspace & _).
  destruct (sanitize_filename_safe (lit " a.b "))
    as (_ & _ & _ & _ & Hfront & Hback & _).
  split; [| split; [| split; [| split]]].
  - apply (Hplace (lit " ") (lit "..") (lit " ")); reflexivity.
  - apply Hunder; [discriminate | reflexivity].
  - apply Hspace. cbn. intros H.
    repeat (destruct H as [H | H]; [discriminate H|]). exact H.
  - apply Hfront. reflexivity.
  - apply Hback. reflexivity.
Defined.

End SanitizeFacts.

(* ================================================================== *)
(** ** The config fetcher                                              *)
(* ================================================================== *)

Module ParseApiFacts.
Import Py Env ParseApi ConfigSpec Examples.

Lemma py_len_sized (v : json) :
  sized v = true -> exists n, py_len v = Ret n.
Proof. destruct v; try discriminate; intros _; eexists; reflexivity. Qed.

Lemma py_len_not_sized (v : json) :
  sized v = false -> py_len v = Raise TypeError.
Proof. destruct v; try discriminate; reflexivity. Qed.

Lemma check_config_acceptable (config : json) :
  check_config config = if acceptable config then config else JNull.
Proof.
  destruct config as [| | | | | |d]; try reflexivity.
  unfold check_config, acceptable.
  destruct (sized (opt_default (dict_get (lit "sites") d) (JArr []))) eqn:Hs.
  - destruct (py_len_sized _ Hs) as [n ->]. cbn [rbind andb].
    destruct (sized (opt_default (dict_get (lit "lives") d) (JArr []))) eqn:Hl.
    + now destruct (py_len_sized _ Hl) as [m ->].
    + now rewrite (py_len_not_sized _ Hl).
  - now rewrite (py_len_not_sized _ Hs).
Qed.

(** C9, amended: the parse step makes one request and returns the parsed
    body exactly when the request succeeds, the body parses as JSON, and
    the value is a list or a dict whose ['sites'] and ['lives'], where
    present, have a length; in every other case it returns [None]. *)
Theorem parse_tvbox_api_result (E : env) (api_url : pystr) (w : world) :
  parse_tvbox_api E api_url w
  = (Ret match delivered E api_url with
         | Some config => if acceptable config then config else JNull
         | None => JNull
         end,
     {| fs := fs w; log := log w ++ [Get api_url] |}).
Proof.
  unfold parse_tvbox_api, requests_get, bind, emit, ret, delivered.
  destruct (http E api_url) as [|status_code [config|]]; try reflexivity.
  - destruct (raises_for_status status_code); [reflexivity|].
    now rewrite check_config_acceptable.
  - now destruct (raises_for_status status_code).
Qed.

(** C9 as stated fails: the request succeeds and the body is a JSON
    object, yet the parse step returns [None], because ['sites'] is a
    number. *)
Lemma parse_tvbox_api_counterexample :
  http E_sites_number (lit "http://h/cfg")
  = Response 200 (Some (JObj [(lit "sites", JInt 5)]))
  /\ raises_for_status 200 = false
  /\ fst (parse_tvbox_api E_sites_number (lit "http://h/cfg") no_files)
     = Ret JNull.
Proof. repeat split. Qed.

End ParseApiFacts.

(* ================================================================== *)
(** ** The site enumerator                                             *)
(* ================================================================== *)

Module ParseSitesFacts.
Import Py Env ParseSites ConfigSpec Examples.

Section Sites.
Variable E : env.
Variable output_dir : pystr.

(** A finished iteration has raised exactly one of the two counters. *)
Lemma process_site_counts (total i : Z) (site : json) (s f : Z) (w : world)
    (s' f' : Z) (w' : world) :
  process_site E output_dir total i site s f w = (Ret (s', f'), w') ->
  s' + f' = s + f + 1.
Proof.
  unfold process_site.
  destruct site as [| | | | | |d];
    try (unfold ret; intros [= <- <- <-]; lia).
  destruct (negb (truthy _)); [unfold ret; intros [= <- <- <-]; lia|].
  unfold bind at 1.
  destruct (fetch_site_config E _ _ w) as [[site_config|e] w1];
    [|discriminate].
  unfold bind at 1.
  destruct (truthy site_config).
  - unfold bind at 1.
    destruct (save_site_config E site_config _ output_dir w1)
      as [[saved|e] w2]; [|discriminate].
    destruct saved; unfold ret at 1; unfold bind at 1;
      (destruct ((if i <? total then sleep else ret tt) w2) as [[u|e] w3];
       [|discriminate]); unfold ret; intros [= <- <- <-]; lia.
  - unfold ret at 1. unfold bind at 1.
    destruct ((if i <? total then sleep else ret tt) w1) as [[u|e] w3];
      [|discriminate].
    unfold ret; intros [= <- <- <-]; lia.
Qed.

Lemma process_sites_counts (total : Z) (sites : list json) :
  forall (i s f : Z) (w : world) (s' f' : Z) (w' : world),
    process_sites E output_dir total i sites s f w = (Ret (s', f'), w') ->
    s' + f' = s + f + Z.of_nat (length sites).
Proof.
  induction sites as [|site sites IH]; intros i s f w s' f' w'.
  - unfold process_sites, ret. intros [= <- <- <-]. cbn. lia.
  - cbn [process_sites]. unfold bind at 1.
    destruct (process_site E output_dir total i site s f w)
      as [[[s1 f1]|e] w1] eqn:Hstep; [|discriminate].
    apply process_site_counts in Hstep.
    cbn [fst snd]. intros Hrest. apply IH in Hrest.
    cbn [length]. lia.
Qed.

(** With the directory at hand, an entry that is well formed never makes
    the iteration raise. *)
Lemma process_site_returns (total i : Z) (site : json) (s f : Z) (w : world) :
  makedirs_ok E output_dir = true ->
  site_ok site = true ->
  exists r w', process_site E output_dir total i site s f w = (Ret r, w').
Proof.
  intros Hmk Hok. unfold process_site.
  destruct site as [| | | | | |d]; try (eexists; eexists; reflexivity).
  destruct (negb (truthy _)); [eexists; eexists; reflexivity|].
  unfold bind at 1, fetch_site_config at 1.
  unfold bind at 1, requests_get, bind at 1, emit, ret at 1, ret at 1.
  set (site_config := match http E _ with ConnError => JNull | _ => _ end).
  unfold bind at 1.
  assert (Hsleep : forall w0 : world, exists w1,
            (if i <? total then sleep else ret tt) w0 = (Ret tt, w1)).
  { intros w0. destruct (i <? total); eexists; reflexivity. }
  destruct (truthy site_config).
  - unfold bind at 1, save_site_config, bind at 1. rewrite Hmk.
    unfold ret at 1.
    unfold site_ok in Hok. unfold opt_default at 1.
    destruct (dict_get (lit "name") d) as [name|].
    + destruct name; try discriminate.
      unfold write_json.
      destruct (writable E _); [|destruct (opens E _)];
        unfold ret at 1; unfold bind at 1;
        match goal with
        | |- context [(if i <? total then sleep else ret tt) ?w0] =>
            destruct (Hsleep w0) as [w1 ->]
        end; eexists; eexists; reflexivity.
    + unfold write_json.
      destruct (writable E _); [|destruct (opens E _)];
        unfold ret at 1; unfold bind at 1;
        match goal with
        | |- context [(if i <? total then sleep else ret tt) ?w0] =>
            destruct (Hsleep w0) as [w1 ->]
        end; eexists; eexists; reflexivity.
  - unfold ret at 1. unfold bind at 1.
    match goal with
    | |- context [(if i <? total then sleep else ret tt) ?w0] =>
        destruct (Hsleep w0) as [w1 ->]
    end. eexists; eexists; reflexivity.
Qed.

Lemma process_sites_returns (total : Z) (sites : list json) :
  makedirs_ok E output_dir = true ->
  forallb site_ok sites = true ->
  forall (i s f : Z) (w : world),
    exists r w', process_sites E output_dir total i sites s f w = (Ret r, w').
Proof.
  intros Hmk. induction sites as [|site sites IH]; intros Hok i s f w.
  - eexists; eexists; reflexivity.
  - cbn [forallb] in Hok. apply andb_true_iff in Hok.
    destruct Hok as [Hsite Hrest].
    cbn [process_sites]. unfold bind at 1.
    destruct (process_site_returns total i site s f w Hmk Hsite)
      as ([s1 f1] & w1 & ->).
    apply (IH Hrest).
Qed.

(** C10: with a non-empty site list in the root config, a returned triple
    has [total] the number of entries and [success + fail = total]; and a
    triple is returned whenever the output directory can be made and every
    dict entry's name, if it has one, is a string. *)
Theorem parse_all_sites_counts (config_file : pystr) (w : world)
    (d : dict) (sites : list json) :
  fs w config_file = Some (JsonFile (JObj d)) ->
  dict_get (lit "sites") d = Some (JArr sites) ->
  sites <> [] ->
  (forall (success fail total : Z) (w' : world),
     parse_all_sites E config_file output_dir w
     = (Ret (success, fail, total), w') ->
     total = Z.of_nat (length sites) /\ success + fail = total)
  /\ (makedirs_ok E output_dir = true ->
      forallb site_ok sites = true ->
      exists (success fail : Z) (w' : world),
        parse_all_sites E config_file output_dir w
        = (Ret (success, fail, Z.of_nat (length sites)), w')
        /\ success + fail = Z.of_nat (length sites)).
Proof.
  intros Hfile Hsites Hne.
  assert (Hrun : parse_all_sites E config_file output_dir w
                 = match process_sites E output_dir (Z.of_nat (length sites))
                           1 sites 0 0 w with
                   | (Ret r, w') =>
                       (Ret (fst r, snd r, Z.of_nat (length sites)), w')
                   | (Raise e, w') => (Raise e, w')
                   end).
  { unfold parse_all_sites. rewrite Hfile.
    unfold bind at 1, lift at 1. cbn [py_get]. rewrite Hsites.
    cbn [opt_default truthy].
    destruct sites as [|site sites']; [contradiction|]. cbn [negb].
    unfold bind at 1, lift at 1. cbn [py_len].
    unfold bind at 1, lift at 1. cbn [py_iter].
    unfold bind at 1.
    destruct (process_sites _ _ _ _ _ _ _ _) as [[r|e] w']; reflexivity. }
  rewrite Hrun. split.
  - intros success fail total w'.
    destruct (process_sites _ _ _ _ _ _ _ _) as [[[s1 f1]|e] w1] eqn:Hloop;
      [|discriminate].
    cbn [fst snd]. intros [= <- <- <- <-].
    apply process_sites_counts in Hloop. split; [reflexivity | lia].
  - intros Hmk Hok.
    destruct (process_sites_returns (Z.of_nat (length sites)) sites Hmk Hok
                1 0 0 w) as ([s1 f1] & w1 & Hloop).
    rewrite Hloop. exists s1, f1, w1. split; [reflexivity|].
    apply process_sites_counts in Hloop. lia.
Qed.

End Sites.

Lemma parse_all_sites_counts_witness :
  exists (success fail : Z) (w' : world),
    parse_all_sites E_two_pages (lit "tvbox_config.json") (lit "sites")
      w_three_sites
    = (Ret (success, fail, 3), w')
    /\ success + fail = 3.
Proof.
  destruct (parse_all_sites_counts E_two_pages (lit "sites")
              (lit "tvbox_config.json") w_three_sites
              [(lit "sites",
                JArr [JInt 7;
                      JObj [(lit "name", JStr (lit "b"))];
                      JObj [(lit "name", JStr (lit "a"));
                            (lit "api", JStr api_demo)]])]
              [JInt 7;
               JObj [(lit "name", JStr (lit "b"))];
               JObj [(lit "name", JStr (lit "a"));
                     (lit "api", JStr api_demo)]])
    as [_ Hreturns].
  - reflexivity.
  - reflexivity.
  - discriminate.
  - apply Hreturns; reflexivity.
Defined.

End ParseSitesFacts.

(* ================================================================== *)
(** ** The play-URL backfill                                           *)
(* ================================================================== *)

Module MergeFacts.
Import Py Env FetchPlayUrls BackfillSpec PyFacts Examples.

Lemma copy_item_dict (k : pystr) (detail video : dict) :
  copy_item k (JObj detail) video = Ret (put detail k video).
Proof.
  unfold copy_item, put. cbn [py_in rbind py_getitem]. unfold dict_has.
  now destruct (dict_get k detail).
Qed.

Lemma copy_item_get_dict (k : pystr) (detail video : dict) :
  copy_item_get k (JObj detail) video = Ret (put detail k video).
Proof.
  unfold copy_item_get, put. cbn [py_in rbind py_get]. unfold dict_has.
  now destruct (dict_get k detail).
Qed.

Lemma copy_item_if_set_dict (k : pystr) (detail video : dict) :
  copy_item_if_set k (JObj detail) video = Ret (put_if_set detail k video).
Proof.
  unfold copy_item_if_set, put_if_set.
  cbn [py_in rbind py_get py_getitem]. unfold dict_has.
  destruct (dict_get k detail) as [x|]; [|reflexivity].
  cbn [opt_default]. now destruct (truthy x).
Qed.

(** On a detail that is a dict the merge never raises. *)
Lemma merge_detail_dict (video detail : dict) :
  merge_detail video (JObj detail) = Ret (merged detail video).
Proof.
  unfold merge_detail, merged.
  do 2 (rewrite copy_item_dict; cbn [rbind]).
  rewrite copy_item_if_set_dict; cbn [rbind].
  do 2 (rewrite copy_item_get_dict; cbn [rbind]).
  apply copy_item_get_dict.
Qed.

Lemma get_put (detail : dict) (k key : pystr) (video : dict) :
  dict_get key (put detail k video)
  = match (if str_eqb k key then dict_get key detail else None) with
    | Some x => Some x
    | None => dict_get key video
    end.
Proof.
  unfold put. destruct (str_eqb k key) eqn:Hk.
  - apply str_eqb_eq in Hk. subst key.
    destruct (dict_get k detail); [apply dict_get_set_same | reflexivity].
  - apply str_eqb_neq in Hk.
    destruct (dict_get k detail); [now apply dict_get_set_other | reflexivity].
Qed.

Lemma get_put_if_set (detail : dict) (k key : pystr) (video : dict) :
  dict_get key (put_if_set detail k video)
  = match (if str_eqb k key then dict_get key detail else None) with
    | Some x => if truthy x then Some x else dict_get key video
    | None => dict_get key video
    end.
Proof.
  unfold put_if_set. destruct (str_eqb k key) eqn:Hk.
  - apply str_eqb_eq in Hk. subst key.
    destruct (dict_get k detail) as [x|]; [|reflexivity].
    destruct (truthy x); [apply dict_get_set_same | reflexivity].
  - apply str_eqb_neq in Hk.
    destruct (dict_get k detail) as [x|]; [|reflexivity].
    destruct (truthy x); [now apply dict_get_set_other | reflexivity].
Qed.

Ltac unfold_puts := repeat (rewrite get_put || rewrite get_put_if_set).

Ltac by_key key :=
  unfold_puts;
  repeat match goal with
         | |- context [str_eqb ?k key] => destruct (str_eqb k key) eqn:?
         end.

Ltac by_key_in H key :=
  repeat (rewrite get_put in H || rewrite get_put_if_set in H);
  repeat match type of H with
         | context [str_eqb ?k key] => destruct (str_eqb k key) eqn:?
         end.

Lemma outside_whitelist (key : pystr) :
  ~ In key whitelist ->
  forall k, In k whitelist -> str_eqb k key = false.
Proof.
  intros Hout k Hk. apply str_eqb_neq. intros ->. contradiction.
Qed.

Ltac decide_keys :=
  repeat match goal with
         | |- context [str_eqb ?a ?b] =>
             let c := eval vm_compute in (str_eqb a b) in
             change (str_eqb a b) with c
         end; cbv iota.

Lemma merged_frame (detail video : dict) (key : pystr) :
  ~ In key whitelist ->
  dict_get key (merged detail video) = dict_get key video.
Proof.
  intros Hout. pose proof (outside_whitelist key Hout) as Hk.
  unfold merged. unfold_puts.
  rewrite !Hk by (cbn; tauto). reflexivity.
Qed.

Lemma merged_copy (detail video : dict) (key : pystr) (x : json) :
  In key unguarded ->
  dict_get key detail = Some x ->
  dict_get key (merged detail video) = Some x.
Proof.
  intros Hin Hx. unfold merged.
  cbn in Hin. decompose [or] Hin; try contradiction; subst key;
    unfold_puts; decide_keys; rewrite ?Hx; reflexivity.
Qed.

Lemma merged_content (detail video : dict) (x : json) :
  dict_get (lit "vod_content") detail = Some x ->
  dict_get (lit "vod_content") (merged detail video)
  = if truthy x then Some x else dict_get (lit "vod_content") video.
Proof.
  intros Hx. unfold merged. unfold_puts. decide_keys.
  rewrite Hx. reflexivity.
Qed.

(** C6, amended: on a detail that is a dict the merge returns a record
    that still has every key it had, differs from the old one only on
    whitelisted keys the detail carries, and takes each changed value from
    the detail: the detail's value is written for every whitelisted key it
    carries, for the description only when that value is not empty.  So a
    populated field ends up empty only for one of the five other keys, and
    only when the detail carries that key with an empty value. *)
Theorem merge_detail_additive (video detail : dict) :
  exists video' : dict,
    merge_detail video (JObj detail) = Ret video'
    /\ (forall key, dict_has key video = true -> dict_has key video' = true)
    /\ (forall key, dict_get key detail = None ->
                    dict_get key video' = dict_get key video)
    /\ (forall key, ~ In key whitelist ->
                    dict_get key video' = dict_get key video)
    /\ (forall key, dict_get key video' = dict_get key video
                    \/ dict_get key video' = dict_get key detail)
    /\ (forall key x, In key unguarded -> dict_get key detail = Some x ->
                      dict_get key video' = Some x)
    /\ (forall x, dict_get (lit "vod_content") detail = Some x ->
                  dict_get (lit "vod_content") video'
                  = if truthy x then Some x
                    else dict_get (lit "vod_content") video)
    /\ (forall key, populated key video = true ->
                    populated key video' = false ->
                    In key unguarded
                    /\ exists x, dict_get key detail = Some x
                                 /\ truthy x = false).
Proof.
  exists (merged detail video). split; [apply merge_detail_dict|].
  split; [|split; [|split; [|split; [|split; [|split]]]]].
  - intros key. unfold dict_has, merged. by_key key;
      destruct (dict_get key detail) as [x|]; try destruct (truthy x);
      auto.
  - intros key Hnone. unfold merged.
    by_key key; rewrite ?Hnone; reflexivity.
  - intros key. apply merged_frame.
  - intros key. unfold merged. by_key key;
      destruct (dict_get key detail) as [x|]; try destruct (truthy x);
      auto.
  - intros key x. apply merged_copy.
  - intros x. apply merged_content.
  - intros key Hbefore Hafter. unfold populated, merged in *.
    by_key_in Hafter key;
      destruct (dict_get key detail) as [x|] eqn:Hx;
      try (destruct (truthy x) eqn:Hx'); cbn [opt_default] in Hafter;
      try congruence;
      (split; [| exists x; split; [reflexivity | assumption]]);
      repeat match goal with
             | H : str_eqb _ key = true |- _ =>
                 apply str_eqb_eq in H; try subst key
             end;
      try discriminate; cbn; tauto.
Qed.

(** C6 as stated fails: a record whose cast is populated is merged with a
    detail that carries an empty cast, and the cast ends up empty; the
    whole run stores that record. *)
Lemma merge_detail_counterexample :
  populated (lit "vod_actor") bob = true
  /\ merge_detail bob (JObj detail_1)
     = Ret [(lit "vod_id", JInt 1); (lit "vod_actor", JStr []);
            (lit "vod_play_url", JStr (lit "u"))]
  /\ fs (snd (update_site_with_play_urls E_blank_actor (lit "a.json")
                (lit "sites") w_bob))
       (lit "/r/sites/a.json")
     = Some (JsonFile
               (JObj [(lit "list",
                       JArr [JObj [(lit "vod_id", JInt 1);
                                   (lit "vod_actor", JStr []);
                                   (lit "vod_play_url", JStr (lit "u"))]])])).
Proof. repeat split. Qed.

Lemma merge_detail_additive_witness :
  exists video' : dict,
    merge_detail bob (JObj detail_1) = Ret video'
    /\ dict_get (lit "vod_id") video' = Some (JInt 1)
    /\ dict_get (lit "vod_play_url") video' = Some (JStr (lit "u")).
Proof.
  destruct (merge_detail_additive bob detail_1)
    as (video' & Hrun & _ & _ & Hframe & _ & Hcopy & _).
  exists video'. split; [exact Hrun | split].
  - rewrite Hframe; [reflexivity|].
    cbn. intros H. repeat (destruct H as [H | H]; [discriminate H|]). exact H.
  - apply Hcopy; [cbn; tauto | reflexivity].
Defined.

End MergeFacts.

Module BackfillFacts.
Import Py Env FetchPlayUrls BackfillSpec MoreSpec PyFacts MergeFacts Examples.
Local Open Scope py_scope.

Section Backfill.
Variable E : env.

(** The detail fetched for a record does not depend on the world. *)
Lemma fetch_vod_detail_run (api_url vod_id : json) (w : world) :
  fetch_vod_detail E api_url vod_id w
  = match py_in (lit "?") api_url with
    | Ret has_query =>
        (Ret (decode_detail (http E (detail_url E api_url has_query vod_id))),
         {| fs := fs w;
            log := log w ++ [Get (detail_url E api_url has_query vod_id)] |})
    | Raise e => (Raise e, w)
    end.
Proof.
  unfold fetch_vod_detail, bind, lift.
  now destruct (py_in (lit "?") api_url).
Qed.

(** A detail that is not a dict either makes the merge raise or leaves
    the record as it was. *)
Lemma merge_detail_other (video : dict) (detail : json) (video' : dict) :
  is_dict detail = false ->
  merge_detail video detail = Ret video' ->
  video' = video.
Proof.
  intros Hnd. unfold merge_detail, copy_item, copy_item_if_set, copy_item_get.
  destruct detail as [| | | |s|l|d]; try discriminate;
    cbn [py_in py_getitem py_get rbind];
    repeat match goal with
           | |- context [if ?c then _ else _] =>
               destruct c; cbn [rbind]; try discriminate
           end;
    now intros [= <-].
Qed.





(** The merge leaves every key outside the whitelist alone. *)
Lemma merge_detail_frame (video : dict) (detail : json) (video' : dict)
    (key : pystr) :
  merge_detail video detail = Ret video' ->
  ~ In key whitelist ->
  dict_get key video' = dict_get key video.
Proof.
  intros Hrun Hout. destruct (is_dict detail) eqn:Hd.
  - destruct detail; try discriminate.
    rewrite merge_detail_dict in Hrun. injection Hrun as <-.
    now apply merged_frame.
  - now rewrite (merge_detail_other _ _ _ Hd Hrun).
Qed.

Lemma has_url_populated (v : dict) :
  dict_has (lit "vod_play_url") v
  && truthy (opt_default (dict_get (lit "vod_play_url") v) JNull)
  = populated (lit "vod_play_url") v.
Proof.
  unfold dict_has, populated.
  now destruct (dict_get (lit "vod_play_url") v).
Qed.

(** The loop body computes [video_result] and leaves the files alone. *)
Lemma process_video_yields (api_url : json) (total i : Z) (video : json)
    (s f : Z) (w : world) :
  fst (process_video E api_url total i video s f w)
  = video_result E api_url video s f
  /\ fs (snd (process_video E api_url total i video s f w)) = fs w.
Proof.
  unfold process_video, video_result.
  destruct video as [| | | | | |v]; try (split; reflexivity).
  rewrite has_url_populated.
  destruct (negb _); [split; reflexivity|].
  destruct (populated _ v).
  - unfold bind, lift, ret.
    destruct (py_slice _); split; reflexivity.
  - unfold bind, lift, ret.
    destruct (py_slice _); [|split; reflexivity]. cbn [rbind].
    rewrite fetch_vod_detail_run. unfold detail_of.
    destruct (py_in (lit "?") api_url) as [has_query|e];
      [|split; reflexivity].
    cbn [rbind].
    destruct (truthy _).
    + destruct (merge_detail v _); [|split; reflexivity].
      cbn [rbind]. destruct (i <? total); split; reflexivity.
    + destruct (i <? total); split; reflexivity.
Qed.

Lemma process_videos_yields (api_url : json) (total : Z)
    (videos : list json) :
  forall (i s f : Z) (w : world),
    fst (process_videos E api_url total i videos s f w)
    = videos_result E api_url videos s f
    /\ fs (snd (process_videos E api_url total i videos s f w)) = fs w.
Proof.
  induction videos as [|video videos IH]; intros i s f w;
    [split; reflexivity|].
  cbn [process_videos videos_result]. unfold bind, ret.
  destruct (process_video_yields api_url total i video s f w) as [Hr Hfs].
  destruct (process_video E api_url total i video s f w) as [[r|e] w1].
  - cbn [fst snd] in Hr, Hfs. rewrite <- Hr. cbn [rbind].
    destruct (IH (i + 1) (fst (snd r)) (snd (snd r)) w1) as [Hrs Hfs'].
    destruct (process_videos E api_url total (i + 1) videos _ _ w1)
      as [[rs|e] w2]; cbn [fst snd] in Hrs, Hfs'; rewrite <- Hrs;
      cbn [rbind fst snd]; (split; [reflexivity | congruence]).
  - cbn [fst snd] in Hr, Hfs. rewrite <- Hr. split; [reflexivity | exact Hfs].
Qed.



(** [backfill] once the loop is known to finish. *)
Lemma backfill_run (filepath : pystr) (d : dict) (api_url : json)
    (w : world) (total : Z) (videos : list json)
    (r : list json * (Z * Z)) :
  truthy (opt_default (dict_get (lit "list") d) (JArr [])) = true ->
  py_len (opt_default (dict_get (lit "list") d) (JArr [])) = Ret total ->
  py_iter (opt_default (dict_get (lit "list") d) (JArr [])) = Ret videos ->
  videos_result E api_url videos 0 0 = Ret r ->
  exists w',
    backfill E filepath (JObj d) api_url w
    = (Ret (if writable E filepath
            then (fst (snd r), snd (snd r), total)
            else (0, 0, 0)), w')
    /\ forall p,
         fs w' p
         = if str_eqb p filepath
           then if writable E filepath
                then Some (JsonFile
                             (with_videos (JObj d)
                                (opt_default (dict_get (lit "list") d) (JArr []))
                                (fst r)))
                else if opens E filepath then Some Unreadable else fs w p
           else fs w p.
Proof.
  intros Htruthy Hlen Hiter Hres.
  unfold backfill. cbn [py_get]. unfold bind, lift, ret.
  rewrite Htruthy, Hlen, Hiter. cbn [negb].
  destruct (process_videos_yields api_url total videos 1 0 0 w) as [Hr Hfs].
  destruct (process_videos E api_url total 1 videos 0 0 w) as [[r0|e] wp];
    cbn [fst snd] in Hr, Hfs; rewrite Hres in Hr; [|discriminate].
  injection Hr as ->.
  unfold write_json.
  destruct (writable E filepath); [|destruct (opens E filepath)];
    eexists; (split; [reflexivity|]); intros p;
    unfold with_file; cbn [fs]; rewrite ?Hfs;
    now destruct (str_eqb p filepath).
Qed.

(** A run of [backfill] that returns either found no videos or finished
    the loop. *)
Lemma backfill_inv (filepath : pystr) (d : dict) (api_url : json)
    (w : world) (r1 : Z * Z * Z) (w1 : world) :
  backfill E filepath (JObj d) api_url w = (Ret r1, w1) ->
  (truthy (opt_default (dict_get (lit "list") d) (JArr [])) = false
   /\ w1 = w)
  \/ (truthy (opt_default (dict_get (lit "list") d) (JArr [])) = true
      /\ exists total videos r,
           py_len (opt_default (dict_get (lit "list") d) (JArr [])) = Ret total
           /\ py_iter (opt_default (dict_get (lit "list") d) (JArr []))
              = Ret videos
           /\ videos_result E api_url videos 0 0 = Ret r).
Proof.
  unfold backfill. cbn [py_get]. unfold bind, lift, ret.
  destruct (truthy _) eqn:Htruthy; cbn [negb];
    [| intros [= <- <-]; now left].
  destruct (py_len _) as [total|]; [|discriminate].
  destruct (py_iter _) as [videos|]; [|discriminate].
  destruct (process_videos_yields api_url total videos 1 0 0 w) as [Hr _].
  destruct (process_videos E api_url total 1 videos 0 0 w) as [[r|e] wp];
    [|discriminate].
  intros _. right. split; [reflexivity|].
  exists total, videos, r. now rewrite <- Hr.
Qed.





Lemma gets_app (a b : list event) : gets (a ++ b) = gets a ++ gets b.
Proof. unfold gets. apply flat_map_app. Qed.

(** One iteration requests the detail of its record when the record needs
    one, and nothing otherwise. *)
Lemma process_video_gets (api : pystr) (total i : Z) (video : json)
    (s f : Z) (w : world) (r : json * (Z * Z)) (w' : world) :
  process_video E (JStr api) total i video s f w = (Ret r, w') ->
  gets (log w')
  = gets (log w)
    ++ (if needs_detail video then [detail_request E api video] else []).
Proof.
  unfold process_video, needs_detail, detail_request.
  destruct video as [| | | | | |v];
    try (unfold ret; intros [= <- <-]; now rewrite app_nil_r).
  rewrite has_url_populated.
  destruct (truthy (opt_default (dict_get (lit "vod_id") v) JNull));
    cbn [negb andb];
    [| unfold ret; intros [= <- <-]; now rewrite app_nil_r].
  destruct (populated _ v); cbn [negb].
  - unfold bind, lift, ret. destruct (py_slice _); [|discriminate].
    intros [= <- <-]. now rewrite app_nil_r.
  - unfold bind, lift, ret. destruct (py_slice _); [|discriminate].
    rewrite fetch_vod_detail_run. cbn [py_in].
    destruct (truthy _).
    + destruct (merge_detail v _); [|discriminate].
      destruct (i <? total); cbn; intros [= <- <-]; cbn [log];
        rewrite ?gets_app; cbn; now rewrite ?app_nil_r.
    + destruct (i <? total); cbn; intros [= <- <-]; cbn [log];
        rewrite ?gets_app; cbn; now rewrite ?app_nil_r.
Qed.

Lemma process_videos_gets (api : pystr) (total : Z) (videos : list json) :
  forall (i s f : Z) (w : world) (r : list json * (Z * Z)) (w' : world),
    process_videos E (JStr api) total i videos s f w = (Ret r, w') ->
    gets (log w')
    = gets (log w) ++ map (detail_request E api) (filter needs_detail videos).
Proof.
  induction videos as [|video videos IH]; intros i s f w r w'.
  - cbn. unfold ret. intros [= <- <-]. now rewrite app_nil_r.
  - cbn [process_videos]. unfold bind, ret.
    destruct (process_video E (JStr api) total i video s f w)
      as [[r1|e] w1] eqn:Hv; [|discriminate].
    destruct (process_videos E (JStr api) total (i + 1) videos _ _ w1)
      as [[rs|e] w2] eqn:Hvs; [|discriminate].
    intros [= <- <-].
    apply process_video_gets in Hv. apply IH in Hvs.
    rewrite Hvs, Hv. cbn [filter].
    destruct (needs_detail video); cbn [map app];
      now rewrite <- app_assoc.
Qed.

(** The requests of a run that returns, when the API URL is a string. *)
Lemma update_site_trace (site_file site_dir : pystr) (w : world)
    (r : Z * Z * Z) (w1 : world) (d : dict) (videos : list json)
    (api : pystr) :
  update_site_with_play_urls E site_file site_dir w = (Ret r, w1) ->
  fs w (site_path E site_dir site_file) = Some (JsonFile (JObj d)) ->
  dict_get (lit "list") d = Some (JArr videos) ->
  get_site_api_url E site_file w = JStr api ->
  api <> [] ->
  gets (log w1)
  = gets (log w) ++ map (detail_request E api) (filter needs_detail videos).
Proof.
  unfold update_site_with_play_urls. fold (site_path E site_dir site_file).
  intros Hrun Hfile Hlist Hapi Hne. rewrite Hfile, Hapi in Hrun.
  destruct api as [|c api]; [contradiction|].
  cbn [truthy negb] in Hrun.
  unfold backfill in Hrun. cbn [py_get] in Hrun. rewrite Hlist in Hrun.
  cbn [opt_default] in Hrun. unfold bind, lift, ret in Hrun.
  destruct videos as [|video videos].
  { cbn in Hrun. injection Hrun as _ <-. cbn. now rewrite app_nil_r. }
  cbn [truthy negb py_len py_iter] in Hrun.
  destruct (process_videos E (JStr (c :: api)) _ 1 (video :: videos) 0 0 w)
    as [[rs|e] wp] eqn:Hloop; [|discriminate].
  apply process_videos_gets in Hloop. rewrite <- Hloop.
  unfold write_json in Hrun.
  destruct (writable E _); [|destruct (opens E _)];
    injection Hrun as _ <-; reflexivity.
Qed.



End Backfill.



End BackfillFacts.

(* ================================================================== *)
(** ** Further properties of the page aggregator                       *)
(* ================================================================== *)

Module AggregatorMore.
Import Py Env PyText FetchAllPages FetchAllPagesMain PageSpec MoreSpec.
Import PyFacts FetchAllPagesFacts Examples.

Section Pages.
Variable E : env.

Lemma page_events_paced (api : pystr) (k a : nat) :
  page_events E api (Z.of_nat (a + k)) (map Z.of_nat (seq a (S k)))
  = paced (map (url_of E api) (map Z.of_nat (seq a (S k)))).
Proof.
  revert a. induction k as [|k IH]; intros a.
  - cbn. replace (a + 0)%nat with a by lia. now rewrite Z.ltb_irrefl.
  - specialize (IH (S a)).
    replace (S a + k)%nat with (a + S k)%nat in IH by lia.
    change (seq a (S (S k))) with (a :: seq (S a) (S k)).
    cbn [map page_events flat_map] in *.
    replace (Z.of_nat a <? Z.of_nat (a + S k)) with true
      by (symmetry; apply Z.ltb_lt; lia).
    cbn [app]. unfold page_events in IH. rewrite IH. reflexivity.
Qed.

Lemma page_events_2_to (api : pystr) (n : Z) :
  1 < n ->
  page_events E api n (pages_2_to n)
  = paced (map (url_of E api) (pages_2_to n)).
Proof.
  intros Hn. unfold pages_2_to.
  replace (Z.to_nat n - 1)%nat with (S (Z.to_nat n - 2)) by lia.
  replace n with (Z.of_nat (2 + (Z.to_nat n - 2))) at 1 by lia.
  apply page_events_paced.
Qed.

(** X1: the aggregator requests the pages 2..n once each, in ascending
    order, pauses between two requests and nowhere else, and touches no
    file. *)
Theorem fetch_all_pages_paced (w : world) (site_file : pystr) (d : dict)
    (api : pystr) (n : Z) :
  ready E w site_file d api ->
  dict_get (lit "pagecount") d = Some (JInt n) ->
  1 < n ->
  page_ok (JObj d) = true ->
  (forall p, 2 <= p <= n ->
     fetch_ok E api p = true \/ fetch_failed E api p = true) ->
  exists (v : json) (w' : world),
    fetch_all_pages E site_file w = (Ret v, w')
    /\ fs w' = fs w
    /\ log w' = log w ++ paced (map (url_of E api) (pages_2_to n)).
Proof.
  intros Hready Hpc Hn Hok Hall.
  rewrite (fetch_all_pages_ready _ _ _ _ _ Hready).
  rewrite (merge_all_pages_run E d api n w Hpc Hn Hok Hall).
  eexists. eexists. split; [reflexivity|]. split; [reflexivity|].
  cbn [log]. now rewrite page_events_2_to.
Qed.

(** Whatever a page holds, the loop only appends to the accumulator. *)
Lemma fetch_rest_appends (api_url : json) (n : Z) (pages : list Z) :
  forall (acc : list json) (w : world) (v : json) (w' : world),
    fetch_rest E api_url n pages (JArr acc) w = (Ret v, w') ->
    exists extra, v = JArr (acc ++ extra).
Proof.
  induction pages as [|p pages IH]; intros acc w v w'.
  - cbn. unfold ret. intros [= <- <-]. exists []. now rewrite app_nil_r.
  - cbn [fetch_rest]. unfold bind at 1.
    destruct (fetch_page E api_url p w) as [[page_data|e] w1]; [|discriminate].
    unfold bind at 1, lift at 1.
    destruct (add_page (JArr acc) page_data) as [acc1|e] eqn:Hadd;
      [|discriminate].
    assert (Hacc1 : exists e1, acc1 = JArr (acc ++ e1)).
    { unfold add_page in Hadd.
      destruct (truthy page_data);
        [| injection Hadd as <-; exists []; now rewrite app_nil_r].
      destruct (py_get page_data (lit "list") (JArr [])) as [page_videos|];
        [|discriminate].
      cbn [rbind] in Hadd.
      destruct (truthy page_videos);
        [| injection Hadd as <-; exists []; now rewrite app_nil_r].
      cbn [py_extend] in Hadd.
      destruct (py_iter page_videos) as [items|]; [|discriminate].
      injection Hadd as <-. now exists items. }
    destruct Hacc1 as [e1 ->].
    unfold bind at 1.
    destruct ((if p <? n then sleep else ret tt) w1) as [[u|e] w2];
      [|discriminate].
    intros Hrest. destruct (IH _ _ _ _ Hrest) as [e2 ->].
    exists (e1 ++ e2). now rewrite app_assoc.
Qed.

(** X2: with [pagecount > 1], whatever the fetched pages hold, a value the
    aggregator returns is a document whose ['list'] begins with all the
    records of the first page, in order, whose ['total'] is the length of
    that list and whose ['page'] is 1. *)
Theorem fetch_all_pages_keeps_first_page (w : world) (site_file : pystr)
    (d : dict) (n : Z) (v : json) (w' : world) :
  fs w (path_join (path_join (PROJECT_ROOT E) (lit "sites")) site_file)
    = Some (JsonFile (JObj d)) ->
  truthy (get_site_api_url E (replace (lit ".json") [] site_file) w) = true ->
  dict_get (lit "pagecount") d = Some (JInt n) ->
  1 < n ->
  page_ok (JObj d) = true ->
  fetch_all_pages E site_file w = (Ret v, w') ->
  exists (out : dict) (extra : list json),
    v = JObj out
    /\ dict_get (lit "list") out = Some (JArr (records (JObj d) ++ extra))
    /\ dict_get (lit "total") out
       = Some (JInt (Z.of_nat (length (records (JObj d) ++ extra))))
    /\ dict_get (lit "page") out = Some (JInt 1).
Proof.
  intros Hfile Hapi Hpc Hn Hok.
  unfold fetch_all_pages. rewrite Hfile, Hapi. cbn [negb].
  unfold merge_all_pages. unfold bind at 1, lift at 1.
  cbn [py_get]. rewrite Hpc. cbn [opt_default].
  unfold bind at 1, lift at 1.
  assert (Hlist : opt_default (dict_get (lit "list") d) (JArr [])
                  = JArr (records (JObj d))).
  { unfold page_ok, records in *.
    destruct (dict_get (lit "list") d) as [x|]; [|reflexivity].
    destruct x; try discriminate. reflexivity. }
  rewrite Hlist.
  unfold bind at 1, lift at 1. cbn [py_len].
  unfold bind at 1, lift at 1. cbn [le_one].
  replace (n <=? 1) with false by (symmetry; apply Z.leb_gt; lia).
  unfold bind at 1, lift at 1. cbn [py_copy].
  unfold bind at 1, lift at 1. cbn [page_range].
  unfold bind at 1.
  destruct (fetch_rest _ _ _ _ _ _) as [[all_videos|e] w1] eqn:Hrest;
    [|discriminate].
  destruct (fetch_rest_appends _ _ _ _ _ _ _ Hrest) as [extra ->].
  unfold bind at 1, lift at 1. cbn [py_len]. unfold ret.
  intros [= <- <-]. eexists. exists extra. split; [reflexivity|].
  repeat split.
  - rewrite !dict_get_set_other by discriminate.
    now rewrite dict_get_set_same.
  - now rewrite dict_get_set_same.
  - rewrite dict_get_set_other by discriminate.
    now rewrite dict_get_set_same.
Qed.

Lemma ends_with_app (suffix s : pystr) : ends_with suffix (s ++ suffix) = true.
Proof.
  unfold ends_with. rewrite rev_app_distr.
  induction (rev suffix) as [|c r IH]; [reflexivity|].
  cbn [app starts_with]. now rewrite N.eqb_refl, IH.
Qed.

(** X3: started without a file argument, [main] exits with 1 and leaves
    the world as it was; started with a name that lacks the [.json]
    suffix, it does what it does for the name with the suffix. *)
Theorem main_file_argument (w : world) (prog name : pystr)
    (more : list pystr) :
  ends_with (lit ".json") name = false ->
  main E [] w = (Ret 1, w)
  /\ main E [prog] w = (Ret 1, w)
  /\ main E (prog :: name :: more) w
     = main E (prog :: (name ++ lit ".json") :: more) w.
Proof.
  intros Hname. repeat split.
  unfold main. now rewrite Hname, ends_with_app.
Qed.

Lemma dict_set_truthy (k : pystr) (v : json) (d : dict) :
  truthy (JObj (dict_set k v d)) = true.
Proof.
  destruct d as [|[k0 v0] d]; [reflexivity|].
  cbn [dict_set]. now destruct (str_eqb k0 k).
Qed.

(** One run of [main] on a first page whose further pages all arrive:
    the merged document is stored in place of the first page. *)
Lemma main_stores_merged (w : world) (prog site_file : pystr) (d : dict)
    (api : pystr) (n : Z) :
  ends_with (lit ".json") site_file = true ->
  ready E w site_file d api ->
  dict_get (lit "pagecount") d = Some (JInt n) ->
  1 < n ->
  page_ok (JObj d) = true ->
  (forall p, 2 <= p <= n -> fetch_ok E api p = true) ->
  writable E (path_join (path_join (PROJECT_ROOT E) (lit "sites")) site_file)
  = true ->
  exists (out : dict) (w1 : world),
    main E [prog; site_file] w = (Ret 0, w1)
    /\ (forall p,
          fs w1 p
          = if str_eqb p (path_join (path_join (PROJECT_ROOT E) (lit "sites"))
                            site_file)
            then Some (JsonFile (JObj out)) else fs w p)
    /\ dict_get (lit "pagecount") out = Some (JInt n)
    /\ dict_get (lit "list") out
       = Some (JArr (records (JObj d)
                     ++ flat_map (fun p => records (fetched E api p))
                          (pages_2_to n))).
Proof.
  intros Hsuffix Hready Hpc Hn Hok Hall Hwr.
  unfold main. rewrite Hsuffix.
  unfold bind at 1.
  rewrite (fetch_all_pages_ready _ _ _ _ _ Hready).
  rewrite (merge_all_pages_run E d api n w Hpc Hn Hok)
    by (intros p Hp; left; now apply Hall).
  rewrite dict_set_truthy.
  unfold bind at 1, save_complete_data, write_json. rewrite Hwr.
  unfold ret. eexists. eexists. split; [reflexivity|].
  split; [intros p; reflexivity|]. split.
  - now rewrite !dict_get_set_other by discriminate.
  - rewrite !dict_get_set_other by discriminate.
    now rewrite dict_get_set_same.
Qed.

(** X4: the aggregator is not idempotent.  Run on a first page whose
    further pages all arrive, [main] stores the merged document; run again
    on what it stored, with the upstream unchanged, it fetches the pages
    2..n again and stores a ['list'] in which their records stand
    twice. *)
Theorem main_twice_repeats_pages (w : world) (prog site_file : pystr)
    (d : dict) (api : pystr) (n : Z) :
  ends_with (lit ".json") site_file = true ->
  ready E w site_file d api ->
  dict_get (lit "pagecount") d = Some (JInt n) ->
  1 < n ->
  page_ok (JObj d) = true ->
  (forall p, 2 <= p <= n -> fetch_ok E api p = true) ->
  writable E (path_join (path_join (PROJECT_ROOT E) (lit "sites")) site_file)
  = true ->
  path_join (PROJECT_ROOT E) (lit "tvbox_config.json")
  <> path_join (path_join (PROJECT_ROOT E) (lit "sites")) site_file ->
  exists (out2 : dict) (w1 w2 : world),
    main E [prog; site_file] w = (Ret 0, w1)
    /\ main E [prog; site_file] w1 = (Ret 0, w2)
    /\ fs w2 (path_join (path_join (PROJECT_ROOT E) (lit "sites")) site_file)
       = Some (JsonFile (JObj out2))
    /\ dict_get (lit "list") out2
       = Some (JArr (records (JObj d)
                     ++ flat_map (fun p => records (fetched E api p))
                          (pages_2_to n)
                     ++ flat_map (fun p => records (fetched E api p))
                          (pages_2_to n))).
Proof.
  intros Hsuffix Hready Hpc Hn Hok Hall Hwr Hcfg.
  destruct (main_stores_merged w prog site_file d api n
              Hsuffix Hready Hpc Hn Hok Hall Hwr)
    as (out1 & w1 & Hrun1 & Hfs1 & Hpc1 & Hlist1).
  assert (Hready1 : ready E w1 site_file out1 api).
  { destruct Hready as (Hfile & Hapi & Hne). split; [|split; [|exact Hne]].
    - rewrite Hfs1. now rewrite str_eqb_refl.
    - unfold get_site_api_url in *. rewrite Hfs1.
      apply str_eqb_neq in Hcfg. now rewrite Hcfg. }
  assert (Hok1 : page_ok (JObj out1) = true).
  { unfold page_ok. now rewrite Hlist1. }
  destruct (main_stores_merged w1 prog site_file out1 api n
              Hsuffix Hready1 Hpc1 Hn Hok1 Hall Hwr)
    as (out2 & w2 & Hrun2 & Hfs2 & _ & Hlist2).
  exists out2, w1, w2. split; [exact Hrun1|]. split; [exact Hrun2|].
  split; [rewrite Hfs2; now rewrite str_eqb_refl|].
  rewrite Hlist2. unfold records at 1. rewrite Hlist1.
  now rewrite <- app_assoc.
Qed.

End Pages.

Lemma fetch_all_pages_paced_witness :
  exists (v : json) (w' : world),
    fetch_all_pages E_page2_down (lit "a.json")
      (disk (config_for (lit "a")) (lit "a.json") (JObj (first_page 3)))
    = (Ret v, w')
    /\ fs w'
       = fs (disk (config_for (lit "a")) (lit "a.json") (JObj (first_page 3)))
    /\ log w'
       = [Get (lit "http://h/api?pg=2"); Sleep; Get (lit "http://h/api?pg=3")].
Proof.
  apply (fetch_all_pages_paced E_page2_down
           (disk (config_for (lit "a")) (lit "a.json") (JObj (first_page 3)))
           (lit "a.json") (first_page 3) api_demo 3).
  - split; [reflexivity | split; [reflexivity | discriminate]].
  - reflexivity.
  - lia.
  - reflexivity.
  - intros p Hp.
    assert (p = 2 \/ p = 3) as [-> | ->] by lia; [right | left]; reflexivity.
Defined.

Lemma fetch_all_pages_keeps_first_page_witness :
  exists (out : dict) (extra : list json),
    fst (fetch_all_pages E_two_pages (lit "a.json")
           (disk (config_for (lit "a")) (lit "a.json") (JObj (first_page 2))))
    = Ret (JObj out)
    /\ dict_get (lit "list") out = Some (JArr ([video 1] ++ extra)).
Proof.
  destruct (fetch_all_pages_keeps_first_page E_two_pages
              (disk (config_for (lit "a")) (lit "a.json") (JObj (first_page 2)))
              (lit "a.json") (first_page 2) 2
              match fst (fetch_all_pages E_two_pages (lit "a.json")
                           (disk (config_for (lit "a")) (lit "a.json")
                              (JObj (first_page 2)))) with
              | Ret v => v
              | Raise _ => JNull
              end
              (snd (fetch_all_pages E_two_pages (lit "a.json")
                      (disk (config_for (lit "a")) (lit "a.json")
                         (JObj (first_page 2))))))
    as (out & extra & Hv & Hlist & _).
  - reflexivity.
  - reflexivity.
  - reflexivity.
  - lia.
  - reflexivity.
  - reflexivity.
  - exists out, extra. split; [|exact Hlist].
    rewrite <- Hv. reflexivity.
Defined.

Lemma main_file_argument_witness :
  main E_two_pages [lit "prog"; lit "a"]
    (disk (config_for (lit "a")) (lit "a.json") (JObj (first_page 2)))
  = main E_two_pages [lit "prog"; lit "a.json"]
      (disk (config_for (lit "a")) (lit "a.json") (JObj (first_page 2))).
Proof.
  apply (main_file_argument E_two_pages
           (disk (config_for (lit "a")) (lit "a.json") (JObj (first_page 2)))
           (lit "prog") (lit "a") []).
  reflexivity.
Defined.

Lemma main_twice_repeats_pages_witness :
  exists (out2 : dict) (w1 w2 : world),
    main E_two_pages [lit "prog"; lit "a.json"]
      (disk (config_for (lit "a")) (lit "a.json") (JObj (first_page 2)))
    = (Ret 0, w1)
    /\ main E_two_pages [lit "prog"; lit "a.json"] w1 = (Ret 0, w2)
    /\ fs w2 (lit "/r/sites/a.json") = Some (JsonFile (JObj out2))
    /\ dict_get (lit "list") out2 = Some (JArr [video 1; video 2; video 2]).
Proof.
  apply (main_twice_repeats_pages E_two_pages
           (disk (config_for (lit "a")) (lit "a.json") (JObj (first_page 2)))
           (lit "prog") (lit "a.json") (first_page 2) api_demo 2).
  - reflexivity.
  - split; [reflexivity | split; [reflexivity | discriminate]].
  - reflexivity.
  - lia.
  - reflexivity.
  - intros p Hp. assert (p = 2) as -> by lia. reflexivity.
  - reflexivity.
  - discriminate.
Defined.

End AggregatorMore.

(* ================================================================== *)
(** ** Further properties of the endpoint lookup                       *)
(* ================================================================== *)

Module LookupMore.
Import Py Env ParseSites NameSpec PyFacts LookupFacts SanitizeFacts Examples.

Lemma find_site_malformed (site_name : pystr) (pre : list dict) (x : json)
    (post : list json) :
  is_dict x = false ->
  (forall s, In s pre ->
     eq_str (opt_default (dict_get (lit "name") s) JNull) site_name = false) ->
  FetchAllPages.find_site site_name (map JObj pre ++ x :: post)
  = Raise AttributeError.
Proof.
  intros Hx. induction pre as [|s pre IH]; intros Hpre.
  - cbn. destruct x; try discriminate; reflexivity.
  - cbn [map app FetchAllPages.find_site py_get rbind].
    rewrite (Hpre s (or_introl eq_refl)). apply IH.
    intros s' Hs'. apply Hpre. now right.
Qed.

(** X6: an entry of the site list that is not a dict hides every entry
    behind it.  When no entry before it has the name looked up, both
    lookups return [None], whatever follows it. *)
Theorem get_site_api_url_malformed_entry (E : env) (w : world) (d : dict)
    (site_file : pystr) (pre : list dict) (x : json) (post : list json) :
  fs w (path_join (PROJECT_ROOT E) (lit "tvbox_config.json"))
  = Some (JsonFile (JObj d)) ->
  dict_get (lit "sites") d = Some (JArr (map JObj pre ++ x :: post)) ->
  is_dict x = false ->
  (forall s, In s pre ->
     eq_str (opt_default (dict_get (lit "name") s) JNull)
       (replace (lit ".json") [] site_file) = false) ->
  FetchAllPages.get_site_api_url E (replace (lit ".json") [] site_file) w
  = JNull
  /\ FetchPlayUrls.get_site_api_url E site_file w = JNull.
Proof.
  intros Hconfig Hsites Hx Hpre.
  unfold FetchAllPages.get_site_api_url, FetchPlayUrls.get_site_api_url.
  rewrite Hconfig. cbn [py_get]. rewrite Hsites.
  cbn [opt_default rbind py_iter]. split.
  - now rewrite (find_site_malformed _ pre x post Hx Hpre).
  - rewrite find_site_same.
    now rewrite (find_site_malformed _ pre x post Hx Hpre).
Qed.

Lemma replace_from_in (old s : pystr) (c : pychar) :
  forall skip, In c (replace_from old [] s skip) -> In c s.
Proof.
  induction s as [|x s IH]; intros skip; [auto|].
  cbn [replace_from]. destruct skip as [|k].
  - destruct (starts_with old (x :: s)).
    + cbn [app]. intros H. right. now apply IH in H.
    + intros [-> | H]; [now left | right; now apply IH in H].
  - intros H. right. now apply IH in H.
Qed.

(** The sanitized name holds none of the nine characters. *)
Lemma sanitize_filename_valid (name : pystr) (c : pychar) :
  In c (sanitize_filename name) -> is_invalid c = false.
Proof.
  rewrite sanitize_filename_eq.
  destruct (strip_by is_dot (strip_by isspace (map subst_char name)))
    as [|c0 s0] eqn:Hs.
  - cbn. intros H.
    repeat (destruct H as [<- | H]; [reflexivity|]). destruct H.
  - rewrite <- Hs. intros H.
    apply strip_by_in in H. apply strip_by_in in H.
    apply in_map_iff in H. destruct H as (x & <- & _).
    apply subst_char_valid.
Qed.

Lemma find_nowhere {A} (f : A -> bool) (l : list A) :
  (forall a, In a l -> f a = false) -> find f l = None.
Proof.
  induction l as [|a l IH]; intros H; [reflexivity|].
  cbn. rewrite (H a (or_introl eq_refl)). apply IH.
  intros b Hb. apply H. now right.
Qed.

(** X7: the enumerator stores a site under its sanitized name, the other
    scripts look a file up under the exact name.  In a config where every
    site name holds one of the nine characters, no file the enumerator
    stores resolves to an API URL. *)
Theorem sanitized_file_not_resolved (E : env) (w : world) (d : dict)
    (sites : list dict) (name : pystr) :
  fs w (path_join (PROJECT_ROOT E) (lit "tvbox_config.json"))
  = Some (JsonFile (JObj d)) ->
  dict_get (lit "sites") d = Some (JArr (map JObj sites)) ->
  (forall s, In s sites ->
     exists n c, dict_get (lit "name") s = Some (JStr n)
                 /\ In c n /\ is_invalid c = true) ->
  FetchAllPages.get_site_api_url E
    (replace (lit ".json") [] (sanitize_filename name ++ lit ".json")) w
  = JNull
  /\ FetchPlayUrls.get_site_api_url E (sanitize_filename name ++ lit ".json") w
     = JNull.
Proof.
  intros Hconfig Hsites Hnames.
  set (key := replace (lit ".json") [] (sanitize_filename name ++ lit ".json")).
  assert (Hkey : forall c, In c key -> is_invalid c = false).
  { intros c Hc. unfold key in Hc.
    change (replace (lit ".json") [] (sanitize_filename name ++ lit ".json"))
      with (replace_from (lit ".json") []
              (sanitize_filename name ++ lit ".json") 0) in Hc.
    apply replace_from_in in Hc. apply in_app_or in Hc.
    destruct Hc as [Hc | Hc]; [now apply sanitize_filename_valid in Hc|].
    cbn in Hc. repeat (destruct Hc as [<- | Hc]; [reflexivity|]).
    destruct Hc. }
  assert (Hfind : find (fun s => eq_str (opt_default (dict_get (lit "name") s)
                                           JNull) key) sites = None).
  { apply find_nowhere. intros s Hs.
    destruct (Hnames s Hs) as (n & c & Hn & Hc & Hinv).
    rewrite Hn. cbn [opt_default eq_str].
    apply str_eqb_neq. intros ->.
    apply Hkey in Hc. congruence. }
  unfold FetchAllPages.get_site_api_url, FetchPlayUrls.get_site_api_url.
  rewrite Hconfig. cbn [py_get]. rewrite Hsites.
  cbn [opt_default rbind py_iter]. fold key. split.
  - now rewrite find_site_first, Hfind.
  - now rewrite (eq_trans (find_site_same _ _) (find_site_first _ _)), Hfind.
Qed.

Lemma get_site_api_url_resolves_witness :
  FetchAllPages.get_site_api_url E_two_pages
    (replace (lit ".json") [] (lit "a" ++ lit ".json"))
    (disk (config_for (lit "a")) (lit "a.json") (JObj (first_page 1)))
  = JStr api_demo
  /\ FetchPlayUrls.get_site_api_url E_two_pages (lit "a" ++ lit ".json")
       (disk (config_for (lit "a")) (lit "a.json") (JObj (first_page 1)))
     = JStr api_demo.
Proof.
  apply (get_site_api_url_resolves E_two_pages (lit "a")
           (disk (config_for (lit "a")) (lit "a.json") (JObj (first_page 1)))
           [(lit "sites",
             JArr [JObj [(lit "name", JStr (lit "a"));
                         (lit "api", JStr api_demo)]])]
           [[(lit "name", JStr (lit "a")); (lit "api", JStr api_demo)]]).
  - reflexivity.
  - reflexivity.
  - reflexivity.
Defined.

Lemma get_site_api_url_malformed_entry_witness :
  FetchAllPages.get_site_api_url E_two_pages
    (replace (lit ".json") [] (lit "a.json")) w_number_first
  = JNull
  /\ FetchPlayUrls.get_site_api_url E_two_pages (lit "a.json") w_number_first
     = JNull.
Proof.
  apply (get_site_api_url_malformed_entry E_two_pages w_number_first
           [(lit "sites",
             JArr [JInt 7;
                   JObj [(lit "name", JStr (lit "a"));
                         (lit "api", JStr api_demo)]])]
           (lit "a.json") [] (JInt 7)
           [JObj [(lit "name", JStr (lit "a")); (lit "api", JStr api_demo)]]).
  - reflexivity.
  - reflexivity.
  - reflexivity.
  - intros s [].
Defined.

Lemma sanitized_file_not_resolved_witness :
  FetchAllPages.get_site_api_url E_two_pages
    (replace (lit ".json") [] (sanitize_filename (lit "A/B") ++ lit ".json"))
    w_slash_name
  = JNull
  /\ FetchPlayUrls.get_site_api_url E_two_pages
       (sanitize_filename (lit "A/B") ++ lit ".json") w_slash_name
     = JNull.
Proof.
  apply (sanitized_file_not_resolved E_two_pages w_slash_name
           [(lit "sites",
             JArr [JObj [(lit "name", JStr (lit "A/B"));
                         (lit "api", JStr api_demo)]])]
           [[(lit "name", JStr (lit "A/B")); (lit "api", JStr api_demo)]]
           (lit "A/B")).
  - reflexivity.
  - reflexivity.
  - intros s [<- | []]. exists (lit "A/B"), 47%N.
    split; [reflexivity | split; [cbn; tauto | reflexivity]].
Defined.

End LookupMore.

(* ================================================================== *)
(** ** Further properties of the play-URL backfill                     *)
(* ================================================================== *)

Module BackfillMore.
Import Py Env FetchPlayUrls BackfillSpec MoreSpec.
Import PyFacts MergeFacts BackfillFacts Examples.

Section Backfill.
Variable E : env.

Lemma video_result_counts (api_url video : json) (s f : Z) (v1 : json)
    (s' f' : Z) :
  video_result E api_url video s f = Ret (v1, (s', f')) ->
  s <= s' /\ f <= f'
  /\ s' + f' = s + f + (if counted video then 1 else 0).
Proof.
  unfold video_result, counted.
  destruct video as [| | | | | |v]; try (intros [= <- <- <-]; lia).
  destruct (truthy (opt_default (dict_get (lit "vod_id") v) JNull));
    cbn [negb]; [| intros [= <- <- <-]; lia].
  destruct (populated _ v).
  - destruct (py_slice _); [|discriminate]. cbn [rbind].
    intros [= <- <- <-]. lia.
  - destruct (py_slice _); [|discriminate]. cbn [rbind].
    destruct (detail_of _ _ _) as [detail|]; [|discriminate]. cbn [rbind].
    destruct (truthy detail).
    + destruct (merge_detail v detail); [|discriminate]. cbn [rbind].
      intros [= <- <- <-]. lia.
    + intros [= <- <- <-]. lia.
Qed.

Lemma videos_result_counts (api_url : json) (videos : list json) :
  forall (s f : Z) (vs1 : list json) (s' f' : Z),
    videos_result E api_url videos s f = Ret (vs1, (s', f')) ->
    s <= s' /\ f <= f'
    /\ s' + f' = s + f + Z.of_nat (length (filter counted videos)).
Proof.
  induction videos as [|video videos IH]; intros s f vs1 s' f'.
  - cbn. intros [= <- <- <-]. lia.
  - cbn [videos_result].
    destruct (video_result E api_url video s f) as [[v1 [s1 f1]]|] eqn:Hv;
      [|discriminate].
    cbn [rbind fst snd].
    destruct (videos_result E api_url videos s1 f1) as [[vs [s2 f2]]|] eqn:Hvs;
      [|discriminate].
    cbn [rbind fst snd]. intros [= <- <- <-].
    apply video_result_counts in Hv. apply IH in Hvs.
    cbn [filter]. destruct (counted video); cbn [length]; lia.
Qed.

Lemma py_len_iter (v : json) (total : Z) (items : list json) :
  py_len v = Ret total -> py_iter v = Ret items ->
  total = Z.of_nat (length items).
Proof.
  destruct v; try discriminate; cbn; intros [= <-] [= <-];
    now rewrite ?length_map.
Qed.

(** X8: a triple the backfill returns has [success + fail <= total] with
    neither count negative; when the file was written, [total] is the
    number of records and [success + fail] the number of records that are
    dicts with a non-empty id (the others are counted as neither). *)
Theorem update_site_counts (site_file site_dir : pystr) (w : world)
    (success fail total : Z) (w1 : world) :
  update_site_with_play_urls E site_file site_dir w
  = (Ret (success, fail, total), w1) ->
  (0 <= success /\ 0 <= fail /\ success + fail <= total)
  /\ (forall (d : dict) (videos : list json),
        fs w (site_path E site_dir site_file) = Some (JsonFile (JObj d)) ->
        dict_get (lit "list") d = Some (JArr videos) ->
        truthy (get_site_api_url E site_file w) = true ->
        writable E (site_path E site_dir site_file) = true ->
        total = Z.of_nat (length videos)
        /\ success + fail = Z.of_nat (length (filter counted videos))).
Proof.
  unfold update_site_with_play_urls. fold (site_path E site_dir site_file).
  set (filepath := site_path E site_dir site_file).
  destruct (fs w filepath) as [[site_data|]|] eqn:Hfile.
  2,3: intros [= <- <- <- <-]; split; [lia | intros; discriminate].
  destruct (truthy (get_site_api_url E site_file w)) eqn:Hapi; cbn [negb].
  2:{ intros [= <- <- <- <-]. split; [lia | intros; discriminate]. }
  intros Hrun.
  destruct site_data as [| | | | | |d]; try discriminate.
  destruct (backfill_inv E _ _ _ _ _ _ Hrun)
    as [[Htruthy ->] | (Htruthy & t & videos & [vs1 [s1 f1]] & Hlen & Hiter & Hres)].
  - unfold backfill in Hrun. cbn [py_get] in Hrun.
    unfold bind, lift, ret in Hrun. rewrite Htruthy in Hrun.
    cbn [negb] in Hrun. injection Hrun as <- <- <-.
    split; [lia|]. intros d0 videos [= <-] Hlist _ _.
    rewrite Hlist in Htruthy. cbn [opt_default] in Htruthy.
    destruct videos; [split; reflexivity | discriminate].
  - destruct (backfill_run E filepath d _ w t videos _ Htruthy Hlen Hiter Hres)
      as (w1' & Hrun' & _).
    rewrite Hrun in Hrun'. cbn [fst snd] in Hrun'.
    pose proof (py_len_iter _ _ _ Hlen Hiter) as Ht.
    apply videos_result_counts in Hres.
    pose proof (filter_length_le counted videos) as Hle.
    destruct (writable E filepath) eqn:Hwr.
    + injection Hrun' as <- <- <- _. split; [lia|].
      intros d0 videos0 [= <-] Hlist _ _.
      rewrite Hlist in Hiter. cbn in Hiter. injection Hiter as <-.
      split; [assumption|]. now destruct Hres as (_ & _ & ->).
    + injection Hrun' as -> -> -> _. split; [lia|].
      intros; discriminate.
Qed.

Lemma same_record_refl (v : json) : same_record v v.
Proof.
  destruct v; try reflexivity. cbn. eexists. split; [reflexivity | auto].
Qed.

Lemma video_result_same (api_url video : json) (s f : Z) (v1 : json)
    (c : Z * Z) :
  video_result E api_url video s f = Ret (v1, c) -> same_record video v1.
Proof.
  unfold video_result.
  destruct video as [| | | | | |v]; try (intros [= <- <-]; reflexivity).
  destruct (negb _); [intros [= <- <-]; apply same_record_refl|].
  destruct (populated _ v).
  - destruct (py_slice _); [|discriminate]. cbn [rbind].
    intros [= <- <-]. apply same_record_refl.
  - destruct (py_slice _); [|discriminate]. cbn [rbind].
    destruct (detail_of _ _ _) as [detail|]; [|discriminate]. cbn [rbind].
    destruct (truthy detail); [| intros [= <- <-]; apply same_record_refl].
    destruct (merge_detail v detail) as [v'|] eqn:Hmerge; [|discriminate].
    cbn [rbind]. intros [= <- <-]. cbn. exists v'. split; [reflexivity|].
    intros key Hkey. now apply (merge_detail_frame v detail v' key Hmerge).
Qed.

Lemma videos_result_same (api_url : json) (videos : list json) :
  forall (s f : Z) (vs1 : list json) (c : Z * Z),
    videos_result E api_url videos s f = Ret (vs1, c) ->
    Forall2 same_record videos vs1.
Proof.
  induction videos as [|video videos IH]; intros s f vs1 c.
  - cbn. intros [= <- <-]. constructor.
  - cbn [videos_result].
    destruct (video_result E api_url video s f) as [[v1 c1]|] eqn:Hv;
      [|discriminate].
    cbn [rbind fst snd].
    destruct (videos_result E api_url videos (fst c1) (snd c1))
      as [[vs cs]|] eqn:Hvs; [|discriminate].
    cbn [rbind fst snd]. intros [= <- <-].
    constructor; [now apply video_result_same in Hv | now apply IH in Hvs].
Qed.

Lemma Forall2_same_record_refl (l : list json) : Forall2 same_record l l.
Proof. induction l; constructor; auto using same_record_refl. Qed.

(** X9: a run of the backfill that returns leaves every other file as it
    was.  Either the dump failed on the opened site file, which is then
    left cut off while the run reports (0, 0, 0); or the site file still
    holds a dict with the same values under every key but ['list'], and a
    list of the same length in the same order, in which every record that
    was a dict is a dict with the same values outside the six whitelisted
    keys (its id among them) and everything else is untouched. *)
Theorem update_site_keeps_records (site_file site_dir : pystr) (w : world)
    (r : Z * Z * Z) (w1 : world) (d : dict) (videos : list json) :
  update_site_with_play_urls E site_file site_dir w = (Ret r, w1) ->
  fs w (site_path E site_dir site_file) = Some (JsonFile (JObj d)) ->
  dict_get (lit "list") d = Some (JArr videos) ->
  (forall p, p <> site_path E site_dir site_file -> fs w1 p = fs w p)
  /\ ((writable E (site_path E site_dir site_file) = false
       /\ opens E (site_path E site_dir site_file) = true
       /\ r = (0, 0, 0)
       /\ fs w1 (site_path E site_dir site_file) = Some Unreadable)
      \/ exists (d1 : dict) (videos1 : list json),
           fs w1 (site_path E site_dir site_file) = Some (JsonFile (JObj d1))
           /\ dict_get (lit "list") d1 = Some (JArr videos1)
           /\ Forall2 same_record videos videos1
           /\ forall key, key <> lit "list" ->
                          dict_get key d1 = dict_get key d).
Proof.
  unfold update_site_with_play_urls. fold (site_path E site_dir site_file).
  set (filepath := site_path E site_dir site_file).
  intros Hrun Hfile Hlist. rewrite Hfile in Hrun.
  assert (Hsame : forall w0, w0 = w ->
            (forall p, p <> filepath -> fs w0 p = fs w p)
            /\ ((writable E filepath = false
                 /\ opens E filepath = true
                 /\ r = (0, 0, 0)
                 /\ fs w0 filepath = Some Unreadable)
                \/ exists d1 videos1,
                     fs w0 filepath = Some (JsonFile (JObj d1))
                     /\ dict_get (lit "list") d1 = Some (JArr videos1)
                     /\ Forall2 same_record videos videos1
                     /\ forall key, key <> lit "list" ->
                                    dict_get key d1 = dict_get key d)).
  { intros w0 ->. split; [reflexivity|]. right. exists d, videos.
    repeat split; auto using Forall2_same_record_refl. }
  destruct (truthy (get_site_api_url E site_file w)); cbn [negb] in Hrun.
  2:{ injection Hrun as _ <-. now apply Hsame. }
  destruct (backfill_inv E _ _ _ _ _ _ Hrun)
    as [[_ ->] | (Htruthy & t & vs & [vs1 c] & Hlen & Hiter & Hres)];
    [now apply Hsame|].
  destruct (backfill_run E filepath d _ w t vs _ Htruthy Hlen Hiter Hres)
    as (w1' & Hrun' & Hfs).
  rewrite Hrun in Hrun'. injection Hrun' as Hr <-.
  rewrite Hlist in Hiter, Hfs. cbn in Hiter. injection Hiter as <-.
  cbn [opt_default with_videos fst] in Hfs.
  split.
  { intros p Hp. rewrite Hfs. apply str_eqb_neq in Hp. now rewrite Hp. }
  specialize (Hfs filepath). rewrite str_eqb_refl in Hfs.
  destruct (writable E filepath); [|destruct (opens E filepath)].
  - right. exists (dict_set (lit "list") (JArr vs1) d), vs1.
    split; [exact Hfs|].
    split; [apply dict_get_set_same|].
    split; [now apply videos_result_same in Hres|].
    intros key Hkey. apply dict_get_set_other. congruence.
  - left. repeat split; assumption.
  - right. exists d, videos.
    split; [now rewrite Hfs|].
    repeat split; auto using Forall2_same_record_refl.
Qed.

(** X10: with a non-empty string as API URL, a run of the backfill that
    returns has requested one detail for each record that is a dict with a
    non-empty id and no populated playback URL, in the order of the list,
    and nothing else. *)
Theorem update_site_requests (site_file site_dir : pystr) (w : world)
    (r : Z * Z * Z) (w1 : world) (d : dict) (videos : list json)
    (api : pystr) :
  update_site_with_play_urls E site_file site_dir w = (Ret r, w1) ->
  fs w (site_path E site_dir site_file) = Some (JsonFile (JObj d)) ->
  dict_get (lit "list") d = Some (JArr videos) ->
  get_site_api_url E site_file w = JStr api ->
  api <> [] ->
  gets (log w1)
  = gets (log w) ++ map (detail_request E api) (filter needs_detail videos).
Proof. apply update_site_trace. Qed.

End Backfill.

Lemma update_site_counts_witness :
  3 = Z.of_nat (length [JInt 7; JObj bob; JObj [(lit "vod_name", JNull)]])
  /\ 1 + 0
     = Z.of_nat (length (filter counted
                           [JInt 7; JObj bob; JObj [(lit "vod_name", JNull)]])).
Proof.
  destruct (update_site_counts E_blank_actor (lit "a.json") (lit "sites")
              w_bob_and_others 1 0 3
              (snd (update_site_with_play_urls E_blank_actor (lit "a.json")
                      (lit "sites") w_bob_and_others)))
    as [_ Hexact].
  - reflexivity.
  - apply (Hexact [(lit "list",
                    JArr [JInt 7; JObj bob; JObj [(lit "vod_name", JNull)]])]);
      reflexivity.
Defined.

Lemma update_site_keeps_records_witness :
  exists (d1 : dict) (videos1 : list json),
    fs (snd (update_site_with_play_urls E_blank_actor (lit "a.json")
               (lit "sites") w_bob_and_others))
      (lit "/r/sites/a.json")
    = Some (JsonFile (JObj d1))
    /\ dict_get (lit "list") d1 = Some (JArr videos1)
    /\ Forall2 same_record [JInt 7; JObj bob; JObj [(lit "vod_name", JNull)]]
         videos1.
Proof.
  destruct (update_site_keeps_records E_blank_actor (lit "a.json")
              (lit "sites") w_bob_and_others (1, 0, 3)
              (snd (update_site_with_play_urls E_blank_actor (lit "a.json")
                      (lit "sites") w_bob_and_others))
              [(lit "list",
                JArr [JInt 7; JObj bob; JObj [(lit "vod_name", JNull)]])]
              [JInt 7; JObj bob; JObj [(lit "vod_name", JNull)]])
    as (_ & [(Hwr & _) | (d1 & videos1 & Hfile & Hlist & Hsame & _)]).
  - reflexivity.
  - reflexivity.
  - reflexivity.
  - discriminate Hwr.
  - exists d1, videos1. split; [exact Hfile | split; [exact Hlist | exact Hsame]].
Defined.

(** The same run on a file system where the dump fails: the detail has
    been requested, the run reports (0, 0, 0), and the site file is left
    cut off, so that the next run finds nothing to read. *)
Lemma update_site_failed_dump :
  fst (update_site_with_play_urls (dump_fails E_blank_actor) (lit "a.json")
         (lit "sites") w_bob_and_others)
  = Ret (0, 0, 0)
  /\ gets (log (snd (update_site_with_play_urls (dump_fails E_blank_actor)
                       (lit "a.json") (lit "sites") w_bob_and_others)))
     = [lit "http://h/api?ac=detail&ids=1"]
  /\ fs (snd (update_site_with_play_urls (dump_fails E_blank_actor)
                (lit "a.json") (lit "sites") w_bob_and_others))
       (lit "/r/sites/a.json")
     = Some Unreadable.
Proof. repeat split. Qed.

Lemma update_site_requests_witness :
  gets (log (snd (update_site_with_play_urls E_blank_actor (lit "a.json")
                    (lit "sites") w_bob_and_others)))
  = [lit "http://h/api?ac=detail&ids=1"].
Proof.
  apply (update_site_requests E_blank_actor (lit "a.json") (lit "sites")
           w_bob_and_others (1, 0, 3)
           (snd (update_site_with_play_urls E_blank_actor (lit "a.json")
                   (lit "sites") w_bob_and_others))
           [(lit "list",
             JArr [JInt 7; JObj bob; JObj [(lit "vod_name", JNull)]])]
           [JInt 7; JObj bob; JObj [(lit "vod_name", JNull)]]
           api_demo).
  - reflexivity.
  - reflexivity.
  - reflexivity.
  - reflexivity.
  - discriminate.
Defined.

End BackfillMore.

(* ================================================================== *)
(** ** Further properties of the site enumerator                       *)
(* ================================================================== *)

Module EnumeratorMore.
Import Py Env ParseSites NameSpec ConfigSpec MoreSpec.
Import PyFacts SanitizeFacts BackfillFacts BackfillMore Examples.

Section Sites.
Variable E : env.
Variable output_dir : pystr.

Lemma process_site_gets (total i : Z) (site : json) (s f : Z) (w : world)
    (r : Z * Z) (w' : world) :
  process_site E output_dir total i site s f w = (Ret r, w') ->
  gets (log w') = gets (log w) ++ site_request E site.
Proof.
  unfold process_site, site_request.
  destruct site as [| | | | | |d];
    try (unfold ret; intros [= <- <-]; now rewrite app_nil_r).
  destruct (truthy (opt_default (dict_get (lit "api") d) (JStr [])));
    cbn [negb]; [| unfold ret; intros [= <- <-]; now rewrite app_nil_r].
  unfold fetch_site_config, requests_get, save_site_config, write_json.
  unfold with_file, bind, lift, emit, ret.
  destruct (truthy _).
  - destruct (makedirs_ok E output_dir); [|discriminate].
    destruct (opt_default (dict_get (lit "name") d) _); try discriminate.
    destruct (writable E _); [|destruct (opens E _)];
      destruct (i <? total); cbn;
      intros [= <- <-]; cbn [log]; rewrite ?gets_app; cbn;
      now rewrite ?app_nil_r.
  - destruct (i <? total); cbn; intros [= <- <-]; cbn [log];
      rewrite ?gets_app; cbn; now rewrite ?app_nil_r.
Qed.

Lemma process_sites_gets (total : Z) (sites : list json) :
  forall (i s f : Z) (w : world) (r : Z * Z) (w' : world),
    process_sites E output_dir total i sites s f w = (Ret r, w') ->
    gets (log w') = gets (log w) ++ flat_map (site_request E) sites.
Proof.
  induction sites as [|site sites IH]; intros i s f w r w'.
  - cbn. unfold ret. intros [= <- <-]. now rewrite app_nil_r.
  - cbn [process_sites]. unfold bind at 1.
    destruct (process_site E output_dir total i site s f w)
      as [[r1|e] w1] eqn:Hsite; [|discriminate].
    intros Hrest. apply process_site_gets in Hsite. apply IH in Hrest.
    rewrite Hrest, Hsite. cbn [flat_map]. now rewrite <- app_assoc.
Qed.

(** X11: a run of the enumerator that returns has requested the API URL
    of every entry of the site list that is a dict with a non-empty
    ['api'], once each, in the order of the list, and nothing else. *)
Theorem parse_all_sites_requests (config_file : pystr) (w : world)
    (d : dict) (sites : list json) (r : Z * Z * Z) (w' : world) :
  fs w config_file = Some (JsonFile (JObj d)) ->
  dict_get (lit "sites") d = Some (JArr sites) ->
  parse_all_sites E config_file output_dir w = (Ret r, w') ->
  gets (log w') = gets (log w) ++ flat_map (site_request E) sites.
Proof.
  intros Hfile Hsites. unfold parse_all_sites. rewrite Hfile.
  unfold bind at 1, lift at 1. cbn [py_get]. rewrite Hsites.
  cbn [opt_default].
  destruct sites as [|site sites].
  { cbn. unfold ret. intros [= _ <-]. now rewrite app_nil_r. }
  cbn [truthy negb]. unfold bind at 1, lift at 1. cbn [py_len].
  unfold bind at 1, lift at 1. cbn [py_iter]. unfold bind at 1.
  destruct (process_sites E output_dir _ 1 (site :: sites) 0 0 w)
    as [[rs|e] w1] eqn:Hloop; [|discriminate].
  unfold ret. intros [= _ <-]. now apply process_sites_gets in Hloop.
Qed.

(** X16: on a name without a dot, sanitizing is idempotent: the
    sanitized name is sanitized to itself. *)
Theorem sanitize_filename_idempotent (name : pystr) :
  ~ In 46%N name ->
  sanitize_filename (sanitize_filename name) = sanitize_filename name.
Proof.
  intros Hdot.
  set (r := sanitize_filename name).
  assert (Hvalid : forall c, In c r -> is_invalid c = false)
    by (intros c; apply LookupMore.sanitize_filename_valid).
  assert (Hr : r <> [] /\ (forall c, In c r -> is_dot c = false)
               /\ starts_clean isspace r = true
               /\ ends_clean isspace r = true).
  { unfold r. rewrite sanitize_filename_eq.
    set (spaced := strip_by isspace (map subst_char name)).
    assert (Hnodot : forall c, In c spaced -> is_dot c = false).
    { intros c Hc. apply strip_by_in in Hc. apply in_map_iff in Hc.
      destruct Hc as (x & <- & Hx). unfold is_dot. apply N.eqb_neq.
      intros Heq. symmetry in Heq. revert Heq. apply subst_char_not_dot.
      intros ->. contradiction. }
    destruct (clean_without is_dot spaced Hnodot) as [Hs He].
    rewrite (strip_by_clean is_dot spaced Hs He).
    pose proof (strip_by_starts_clean isspace (map subst_char name)) as Hss.
    pose proof (strip_by_ends_clean isspace (map subst_char name)) as Hse.
    fold spaced in Hss, Hse.
    destruct spaced as [|c0 s0].
    - repeat split; try discriminate.
      intros c Hc. cbn in Hc.
      repeat (destruct Hc as [<- | Hc]; [reflexivity|]). destruct Hc.
    - split; [discriminate|]. now repeat split. }
  destruct Hr as (Hne & Hnodot & Hs & He).
  rewrite sanitize_filename_eq.
  rewrite (map_id_on subst_char r)
    by (intros c Hc; unfold subst_char; now rewrite (Hvalid c Hc)).
  rewrite (strip_by_clean isspace r Hs He).
  destruct (clean_without is_dot r Hnodot) as [Hds Hde].
  rewrite (strip_by_clean is_dot r Hds Hde).
  destruct r; [contradiction | reflexivity].
Qed.

(** Two names that differ only in which of the nine characters stand at
    the same places are sanitized to the same name. *)
Lemma sanitize_filename_subst (name1 name2 : pystr) :
  map subst_char name1 = map subst_char name2 ->
  sanitize_filename name1 = sanitize_filename name2.
Proof. intros H. now rewrite !sanitize_filename_eq, H. Qed.

(** X12: two site names that differ only in which of the nine characters
    stand at the same places are stored under one file name; saved one
    after the other, the second config replaces the first. *)
Theorem save_site_config_collision (config1 config2 : json)
    (name1 name2 : pystr) (w : world) :
  map subst_char name1 = map subst_char name2 ->
  makedirs_ok E output_dir = true ->
  writable E (path_join output_dir (sanitize_filename name1 ++ lit ".json"))
  = true ->
  exists w1 w2,
    save_site_config E config1 (JStr name1) output_dir w = (Ret true, w1)
    /\ fs w1 (path_join output_dir (sanitize_filename name1 ++ lit ".json"))
       = Some (JsonFile config1)
    /\ save_site_config E config2 (JStr name2) output_dir w1 = (Ret true, w2)
    /\ fs w2 (path_join output_dir (sanitize_filename name1 ++ lit ".json"))
       = Some (JsonFile config2)
    /\ forall p,
         p <> path_join output_dir (sanitize_filename name1 ++ lit ".json") ->
         fs w2 p = fs w p.
Proof.
  intros Hsame Hmk Hwr.
  pose proof (sanitize_filename_subst _ _ Hsame) as Hname.
  unfold save_site_config, write_json, bind, lift, ret.
  rewrite Hmk, <- Hname, Hwr. unfold with_file.
  eexists. eexists. split; [reflexivity|]. cbn [fs].
  split; [now rewrite str_eqb_refl|]. split; [reflexivity|].
  cbn [fs]. split; [now rewrite str_eqb_refl|].
  intros p Hp. apply str_eqb_neq in Hp. now rewrite Hp.
Qed.

(** What an iteration on a well-formed entry comes to. *)
Lemma process_site_result (total i : Z) (site : json) (s f : Z) (w : world) :
  makedirs_ok E output_dir = true ->
  site_ok site = true ->
  exists w',
    process_site E output_dir total i site s f w
    = (Ret (if site_saved E output_dir i site then (s + 1, f) else (s, f + 1)),
       w').
Proof.
  intros Hmk Hok. unfold process_site, site_saved.
  destruct site as [| | | | | |d]; try (eexists; reflexivity).
  assert (Hname : exists name,
            opt_default (dict_get (lit "name") d)
              (JStr (lit "site_" ++ str_of_int i)) = JStr name).
  { unfold site_ok in Hok.
    destruct (dict_get (lit "name") d) as [x|]; [|eexists; reflexivity].
    destruct x; try discriminate. eexists; reflexivity. }
  destruct Hname as [name Hname]. rewrite !Hname.
  destruct (truthy (opt_default (dict_get (lit "api") d) (JStr [])));
    cbn [negb andb]; [| eexists; reflexivity].
  unfold fetch_site_config, requests_get, save_site_config, write_json.
  unfold bind, lift, emit, ret. rewrite Hmk.
  fold (FetchAllPages.decode_page
          (http E (py_str E (opt_default (dict_get (lit "api") d) (JStr []))))).
  destruct (truthy (FetchAllPages.decode_page _)); cbn [andb].
  - destruct (writable E _); [|destruct (opens E _)];
      destruct (i <? total); eexists; reflexivity.
  - destruct (i <? total); eexists; reflexivity.
Qed.

Lemma process_sites_result (total : Z) (sites : list json) :
  makedirs_ok E output_dir = true ->
  forallb site_ok sites = true ->
  forall (i s f : Z) (w : world),
    exists w',
      process_sites E output_dir total i sites s f w
      = (Ret (s + saved_count E output_dir i sites,
              f + (Z.of_nat (length sites) - saved_count E output_dir i sites)),
         w').
Proof.
  intros Hmk. induction sites as [|site sites IH]; intros Hok i s f w.
  - exists w. cbn. unfold ret. do 3 f_equal; lia.
  - cbn [forallb] in Hok. apply andb_true_iff in Hok.
    destruct Hok as [Hsite Hrest].
    cbn [process_sites]. unfold bind at 1.
    destruct (process_site_result total i site s f w Hmk Hsite) as [w1 ->].
    destruct (site_saved E output_dir i site) eqn:Hsaved; cbn [fst snd].
    + destruct (IH Hrest (i + 1) (s + 1) f w1) as [w2 ->].
      exists w2. cbn [saved_count length]. rewrite Hsaved.
      do 3 f_equal; lia.
    + destruct (IH Hrest (i + 1) s (f + 1) w1) as [w2 ->].
      exists w2. cbn [saved_count length]. rewrite Hsaved.
      do 3 f_equal; lia.
Qed.

(** X15: when the output directory can be made and every dict entry's
    name, if it has one, is a string, the enumerator's success count is
    the number of entries that have a non-empty API URL, whose request
    delivers a non-empty JSON value, and whose file can be written; every
    other entry is a failure. *)
Theorem parse_all_sites_success (config_file : pystr) (w : world)
    (d : dict) (sites : list json) :
  fs w config_file = Some (JsonFile (JObj d)) ->
  dict_get (lit "sites") d = Some (JArr sites) ->
  sites <> [] ->
  makedirs_ok E output_dir = true ->
  forallb site_ok sites = true ->
  exists w',
    parse_all_sites E config_file output_dir w
    = (Ret (saved_count E output_dir 1 sites,
            Z.of_nat (length sites) - saved_count E output_dir 1 sites,
            Z.of_nat (length sites)), w').
Proof.
  intros Hfile Hsites Hne Hmk Hok.
  unfold parse_all_sites. rewrite Hfile.
  unfold bind at 1, lift at 1. cbn [py_get]. rewrite Hsites.
  cbn [opt_default].
  destruct sites as [|site sites']; [contradiction|].
  cbn [truthy negb]. unfold bind at 1, lift at 1. cbn [py_len].
  unfold bind at 1, lift at 1. cbn [py_iter]. unfold bind at 1.
  destruct (process_sites_result (Z.of_nat (length (site :: sites')))
              (site :: sites') Hmk Hok 1 0 0 w) as [w' ->].
  exists w'. reflexivity.
Qed.

End Sites.

Lemma parse_all_sites_success_witness :
  exists w',
    parse_all_sites E_site_up (lit "tvbox_config.json") (lit "sites")
      w_three_sites
    = (Ret (1, 2, 3), w').
Proof.
  apply (parse_all_sites_success E_site_up (lit "sites")
           (lit "tvbox_config.json") w_three_sites
           [(lit "sites",
             JArr [JInt 7;
                   JObj [(lit "name", JStr (lit "b"))];
                   JObj [(lit "name", JStr (lit "a"));
                         (lit "api", JStr api_demo)]])]
           [JInt 7;
            JObj [(lit "name", JStr (lit "b"))];
            JObj [(lit "name", JStr (lit "a")); (lit "api", JStr api_demo)]]).
  - reflexivity.
  - reflexivity.
  - discriminate.
  - reflexivity.
  - reflexivity.
Defined.

Lemma parse_all_sites_requests_witness :
  gets (log (snd (parse_all_sites E_two_pages (lit "tvbox_config.json")
                    (lit "sites") w_three_sites)))
  = [api_demo].
Proof.
  apply (parse_all_sites_requests E_two_pages (lit "sites")
           (lit "tvbox_config.json") w_three_sites
           [(lit "sites",
             JArr [JInt 7;
                   JObj [(lit "name", JStr (lit "b"))];
                   JObj [(lit "name", JStr (lit "a"));
                         (lit "api", JStr api_demo)]])]
           [JInt 7;
            JObj [(lit "name", JStr (lit "b"))];
            JObj [(lit "name", JStr (lit "a")); (lit "api", JStr api_demo)]]
           (0, 3, 3)
           (snd (parse_all_sites E_two_pages (lit "tvbox_config.json")
                   (lit "sites") w_three_sites))).
  - reflexivity.
  - reflexivity.
  - reflexivity.
Defined.

Lemma sanitize_filename_idempotent_witness :
  sanitize_filename (sanitize_filename (lit " A/B:C "))
  = sanitize_filename (lit " A/B:C ").
Proof.
  apply (sanitize_filename_idempotent (lit " A/B:C ")).
  cbn. intros H. repeat (destruct H as [H | H]; [discriminate H|]). exact H.
Defined.

Lemma save_site_config_collision_witness :
  exists w1 w2,
    save_site_config E_two_pages (JInt 1) (JStr (lit "A/B")) (lit "sites")
      no_files
    = (Ret true, w1)
    /\ fs w1 (lit "sites/A_B.json") = Some (JsonFile (JInt 1))
    /\ save_site_config E_two_pages (JInt 2) (JStr (lit "A:B")) (lit "sites") w1
       = (Ret true, w2)
    /\ fs w2 (lit "sites/A_B.json") = Some (JsonFile (JInt 2))
    /\ forall p, p <> lit "sites/A_B.json" -> fs w2 p = fs no_files p.
Proof.
  apply (save_site_config_collision E_two_pages (lit "sites")
           (JInt 1) (JInt 2) (lit "A/B") (lit "A:B") no_files);
    reflexivity.
Defined.

End EnumeratorMore.

(* ================================================================== *)
(** ** Further properties of the config fetcher                        *)
(* ================================================================== *)

Module ConfigFetcherMore.
Import Py Env ParseApi ParseApiMain NameSpec ConfigSpec.
Import PyFacts SanitizeFacts ParseApiFacts Examples.

Lemma lstrip_nil (p : pychar -> bool) (s : pystr) :
  lstrip p s = [] <-> forallb p s = true.
Proof.
  induction s as [|c s IH]; [easy|].
  cbn. destruct (p c); [exact IH | easy].
Qed.

(** A line is dropped exactly when it is blank. *)
Lemma strip_nil (s : pystr) :
  strip_by isspace s = [] <-> forallb isspace s = true.
Proof.
  split.
  - intros H. unfold strip_by, rstrip in H.
    apply (f_equal (@rev pychar)) in H. rewrite rev_involutive in H.
    cbn in H. apply lstrip_nil in H.
    destruct (lstrip isspace s) as [|c t] eqn:Hl; [now apply lstrip_nil|].
    pose proof (lstrip_starts_clean isspace s) as Hc. rewrite Hl in Hc.
    cbn in Hc. apply negb_true_iff in Hc.
    assert (Hin : In c (rev (c :: t))) by (apply in_rev; rewrite rev_involutive; now left).
    rewrite forallb_forall in H. apply H in Hin. congruence.
  - intros H. unfold strip_by. apply lstrip_nil in H. now rewrite H.
Qed.

(** X13: the lines that are not blank are kept in order, each stripped;
    so the URL [main] uses is the first line that is not blank, without
    the whitespace around it, and it is used only if there is one. *)
Theorem stripped_lines_first (lines : list pystr) :
  match stripped_lines lines with
  | [] => forall line, In line lines -> forallb isspace line = true
  | api_url :: _ =>
      exists blank line rest,
        lines = blank ++ line :: rest
        /\ (forall b, In b blank -> forallb isspace b = true)
        /\ api_url = strip_by isspace line
        /\ api_url <> []
        /\ starts_clean isspace api_url = true
        /\ ends_clean isspace api_url = true
  end.
Proof.
  unfold stripped_lines.
  induction lines as [|line lines IH]; [intros line []|].
  cbn [filter]. destruct (strip_by isspace line) as [|c t] eqn:Hline.
  - cbn [truthy].
    destruct (map _ (filter _ lines)) as [|api_url urls].
    + intros l [<- | Hl]; [now apply strip_nil | now apply IH].
    + destruct IH as (blank & l & rest & -> & Hblank & Hrest).
      exists (line :: blank), l, rest. split; [reflexivity|].
      split; [|exact Hrest].
      intros b [<- | Hb]; [now apply strip_nil | now apply Hblank].
  - cbn [truthy map]. exists [], line, lines.
    split; [reflexivity|]. split; [intros b []|].
    rewrite Hline. split; [reflexivity|]. split; [discriminate|].
    rewrite <- Hline.
    split; [apply strip_by_starts_clean | apply strip_by_ends_clean].
Qed.

Section Main.
Variable E : env.

(** X14: when the key file has a line that is not blank, [main] makes one
    request, to the first such line stripped.  When the request succeeds
    and the body is an acceptable config that is not empty, [main] writes
    that value, as it is, as the root config: it exits with 0 when the
    write succeeds, and with 1 when it fails, the root config being then
    left cut off if the file had been opened and as it was if not.  In
    every other case it exits with 1 and no file is changed.  Without a
    key file, or with blank lines only, it exits with 1 and does
    nothing. *)
Theorem main_stores_config (lines : list pystr) (api_url : pystr)
    (more : list pystr) (w : world) :
  stripped_lines lines = api_url :: more ->
  let root := path_join (PROJECT_ROOT E) (lit "tvbox_config.json") in
  let to_store :=
    match delivered E api_url with
    | Some config =>
        if acceptable config && truthy config then Some config else None
    | None => None
    end in
  (exists w',
     main E (Some lines) w
     = (Ret match to_store with
            | Some _ => if writable E root then 0 else 1
            | None => 1
            end, w')
     /\ log w' = log w ++ [Get api_url]
     /\ forall p,
          fs w' p
          = match to_store with
            | Some config =>
                if str_eqb p root
                then if writable E root then Some (JsonFile config)
                     else if opens E root then Some Unreadable
                     else fs w p
                else fs w p
            | None => fs w p
            end)
  /\ main E None w = (Ret 1, w)
  /\ (forall blanks, stripped_lines blanks = [] ->
                     main E (Some blanks) w = (Ret 1, w)).
Proof.
  intros Hlines root to_store. split; [|split].
  - unfold main. rewrite Hlines.
    unfold parse_tvbox_api, requests_get, save_config, write_json.
    unfold with_file, bind, emit, ret.
    change (isabs (lit "tvbox_config.json")) with false.
    cbv iota. fold root. subst to_store. unfold delivered.
    destruct (http E api_url) as [|status_code [config|]];
      try (eexists; split; [reflexivity|]; split; reflexivity).
    + destruct (raises_for_status status_code);
        [eexists; split; [reflexivity|]; split; reflexivity|].
      rewrite check_config_acceptable.
      destruct (acceptable config); cbn [andb truthy];
        [| eexists; split; [reflexivity|]; split; reflexivity].
      destruct (truthy config); cbn [andb];
        [| eexists; split; [reflexivity|]; split; reflexivity].
      destruct (writable E root); [|destruct (opens E root)];
        eexists; (split; [reflexivity|]); (split; [reflexivity|]);
        intros p; cbn [fs]; now destruct (str_eqb p root).
    + destruct (raises_for_status status_code);
        eexists; (split; [reflexivity|]); split; reflexivity.
  - reflexivity.
  - intros blanks Hblanks. unfold main. now rewrite Hblanks.
Qed.

End Main.

Lemma main_stores_config_witness :
  exists w',
    main E_config (Some [lit " "; lit " http://h/cfg "; lit "other"]) no_files
    = (Ret 0, w')
    /\ log w' = [Get (lit "http://h/cfg")]
    /\ fs w' (lit "/r/tvbox_config.json")
       = Some (JsonFile (config_for (lit "a"))).
Proof.
  destruct (main_stores_config E_config
              [lit " "; lit " http://h/cfg "; lit "other"]
              (lit "http://h/cfg") [lit "other"] no_files)
    as [(w' & Hrun & Hlog & Hfs) _].
  - reflexivity.
  - exists w'. split; [exact Hrun|]. split; [exact Hlog|].
    rewrite Hfs. reflexivity.
Defined.

(** The same run on a file system where the dump fails: the exit code
    is 1 and the root config is left cut off. *)
Lemma main_failed_dump :
  fst (main (dump_fails E_config)
         (Some [lit " "; lit " http://h/cfg "; lit "other"])
         (disk (config_for (lit "old")) (lit "a.json") JNull))
  = Ret 1
  /\ fs (snd (main (dump_fails E_config)
                (Some [lit " "; lit " http://h/cfg "; lit "other"])
                (disk (config_for (lit "old")) (lit "a.json") JNull)))
       (lit "/r/tvbox_config.json")
     = Some Unreadable.
Proof. repeat split. Qed.

End ConfigFetcherMore.
